(** * Product scraper: extraction, price normalisation and CSV export

    A shallow embedding of [scraper.py] (classes [WebScraper] and
    [CSVExporter], and the workflow [scrape_website]) and of the table
    and the multi-page example of [website_configs.py].  Python [str]
    values are sequences of Unicode code points, dictionaries are finite
    maps, exceptions are an explicit result type, the logger is an
    output list, and the scraper instance is a record threaded through
    the calls that mutate it. *)

From Stdlib Require Import NArith List Bool Lia String Ascii.
From Stdlib Require Import DecimalString.
From stdpp Require Import gmap strings list fin_maps.

Local Open Scope N_scope.

(** ** Python strings *)

(** A [str] is a sequence of code points. *)
Abbreviation pystr := (list N).

(** An ASCII literal of the source, as a [str]. *)
Fixpoint lit (s : string) : pystr :=
  match s with
  | EmptyString => []
  | String a s' => N_of_ascii a :: lit s'
  end.
Arguments lit : simpl never.

(** Membership in a table of inclusive code point ranges. *)
Definition in_ranges (ranges : list (N * N)) (c : N) : bool :=
  existsb (fun r => (r.1 <=? c) && (c <=? r.2)) ranges.

(** [str.isspace] on one code point: the characters [str.strip()]
    removes when it is called without an argument. *)
Definition space_ranges : list (N * N) :=
  [(9, 13); (28, 32); (133, 133); (160, 160); (5760, 5760); (8192, 8202);
   (8232, 8233); (8239, 8239); (8287, 8287); (12288, 12288)].

Definition py_isspace (c : N) : bool := in_ranges space_ranges c.

Fixpoint lstrip (s : pystr) : pystr :=
  match s with
  | [] => []
  | c :: s' => if py_isspace c then lstrip s' else s
  end.

Definition rstrip (s : pystr) : pystr := rev (lstrip (rev s)).

(** [s.strip()] *)
Definition strip (s : pystr) : pystr := rstrip (lstrip s).

(** [re.sub(pattern, '', s)] for a pattern that is one character class:
    every character of the class is deleted. *)
Definition re_sub_delete (cls : N -> bool) (s : pystr) : pystr :=
  List.filter (fun c => negb (cls c)) s.

(** Truth value of a [str]: non-empty. *)
Definition str_truthy (s : pystr) : bool :=
  match s with [] => false | _ :: _ => true end.

(** The decimal digits of Unicode 14 (category Nd), as shipped with
    CPython 3.11: one instance of the digit class of the regex engine. *)
Definition nd_ranges : list (N * N) :=
  [(48, 57); (1632, 1641); (1776, 1785); (1984, 1993); (2406, 2415);
   (2534, 2543); (2662, 2671); (2790, 2799); (2918, 2927); (3046, 3055);
   (3174, 3183); (3302, 3311); (3430, 3439); (3558, 3567); (3664, 3673);
   (3792, 3801); (3872, 3881); (4160, 4169); (4240, 4249); (6112, 6121);
   (6160, 6169); (6470, 6479); (6608, 6617); (6784, 6793); (6800, 6809);
   (6992, 7001); (7088, 7097); (7232, 7241); (7248, 7257); (42528, 42537);
   (43216, 43225); (43264, 43273); (43472, 43481); (43504, 43513);
   (43600, 43609); (44016, 44025); (65296, 65305); (66720, 66729);
   (68912, 68921); (69734, 69743); (69872, 69881); (69942, 69951);
   (70096, 70105); (70384, 70393); (70736, 70745); (70864, 70873);
   (71248, 71257); (71360, 71369); (71472, 71481); (71904, 71913);
   (72016, 72025); (72784, 72793); (73040, 73049); (73120, 73129);
   (92768, 92777); (92864, 92873); (93008, 93017); (120782, 120831);
   (123200, 123209); (123632, 123641); (125264, 125273); (130032, 130041)].

Definition unicode14_decimal (c : N) : bool := in_ranges nd_ranges c.

(** ** Price normalisation *)

Section CleanPrice.

(** The class [\d] of the regex engine on [str] patterns
    ([str.isdecimal] on one character).  Its table belongs to the
    Python runtime and grows with the Unicode version. *)
Variable unicode_decimal : N -> bool.

(** The character class [[^\d.,]]. *)
Definition price_junk (c : N) : bool :=
  negb (unicode_decimal c || (c =? 46) || (c =? 44)).

(** [WebScraper._clean_price] *)
Definition _clean_price (price_text : pystr) : pystr :=
  let cleaned := re_sub_delete price_junk price_text in
  if str_truthy cleaned then strip cleaned else lit "N/A".

(** The normalisation rule in the words of the specification: delete,
    trim, then test for emptiness. *)
Definition normalize_price_spec (s : pystr) : pystr :=
  let remainder :=
    strip (List.filter
             (fun c => unicode_decimal c || (c =? 46) || (c =? 44)) s) in
  match remainder with
  | [] => lit "N/A"
  | _ :: _ => remainder
  end.

End CleanPrice.


(** ** Exceptions, dictionaries, log *)

Inductive exn :=
| KeyError (key : string)
| SelectorSyntaxError (selector : pystr).

Inductive result (A : Type) :=
| Ok (a : A)
| Raise (e : exn).
Arguments Ok {A} a.
Arguments Raise {A} e.

#[global] Instance result_ret : MRet result := fun A a => Ok a.

#[global] Instance result_bind : MBind result := fun A B k r =>
  match r with
  | Ok a => k a
  | Raise e => Raise e
  end.

(** A dictionary with [str] keys and [str] values.  The keys the source
    uses are ASCII literals. *)
Abbreviation dict := (gmap string pystr).

(** [d[key]] *)
Definition getitem (d : dict) (key : string) : result pystr :=
  match d !! key with
  | Some v => Ok v
  | None => Raise (KeyError key)
  end.

(** [d.get(key, default)] *)
Definition dict_get (d : dict) (key : string) (default : pystr) : pystr :=
  match d !! key with
  | Some v => v
  | None => default
  end.

(** Truth value of a dictionary: non-empty. *)
Definition dict_truthy (d : dict) : bool := bool_decide (d ≠ ∅).

Inductive level := DEBUG | INFO | WARNING | ERROR.

(** The messages of [parse_products] and [export], with the values
    their f-strings interpolate.  A log lists the calls of the logger in
    order; [emitted] below keeps those that pass the level of the
    module. *)
Inductive message :=
| Found (n : nat)
| Extracted (number : nat) (name : pystr)
| ErrorExtracting (number : nat) (e : exn)
| SuccessfullyExtracted (n : nat)
| ErrorParsing (e : exn)
| Exported (filename : pystr)
| TotalExported (n : nat)
| ErrorExporting (e : exn).

Abbreviation log := (list (level * message)).

(** ** The extractor *)

(** Instance state of [WebScraper].  [session] stands for the headers of
    the [requests.Session] that [__init__] configures. *)
Record WebScraper := mkWebScraper {
  url : pystr;
  timeout : N;
  session : dict;
  products : list dict
}.

(** [WebScraper.__init__] *)
Definition WebScraper_init (url : pystr) (timeout : N) : WebScraper :=
  {| url := url;
     timeout := timeout;
     session :=
       {[ "User-Agent"%string :=
            lit "Mozilla/5.0 (Windows NT 10.0; Win64; x64) AppleWebKit/537.36" ]};
     products := [] |}.

(** [WebScraper.get_products] *)
Definition get_products (self : WebScraper) : list dict := products self.

Section Extractor.

Variable unicode_decimal : N -> bool.

(** The document tree and its query engine (BeautifulSoup): [select]
    returns the matching descendants of a node in document order, or
    raises when the selector is invalid; [get_text_strip] is
    [get_text(strip=True)]. *)
Variable node : Type.
Variable select : node -> pystr -> result (list node).
Variable get_text_strip : node -> pystr.

(** [tag.select_one(selector)]: the first match of [select], or
    [None]. *)
Definition select_one (tag : node) (selector : pystr)
  : result (option node) :=
  matches ← select tag selector;
  Ok (head matches).

(** [WebScraper._extract_product].  A tag is always true, so
    [if name_elem] tests for [None]. *)
Definition _extract_product (container : node) (selectors : dict)
  : result dict :=
  let product : dict := ∅ in
  name_selector ← getitem selectors "name";
  name_elem ← select_one container name_selector;
  let product :=
    <[ "name"%string :=
         match name_elem with
         | Some e => get_text_strip e
         | None => lit "N/A"
         end ]> product in
  price_selector ← getitem selectors "price";
  price_elem ← select_one container price_selector;
  let product :=
    match price_elem with
    | Some e =>
        let price_text := get_text_strip e in
        <[ "price"%string := _clean_price unicode_decimal price_text ]>
          product
    | None => <[ "price"%string := lit "N/A" ]> product
    end in
  rating_selector ← getitem selectors "rating";
  rating_elem ← select_one container rating_selector;
  let product :=
    <[ "rating"%string :=
         match rating_elem with
         | Some e => get_text_strip e
         | None => lit "N/A"
         end ]> product in
  Ok product.

(** The [for idx, container in enumerate(containers)] loop of
    [parse_products]: [products] and [lg] are the list and the log as
    the iteration at index [idx] finds them. *)
Fixpoint extract_loop (selectors : dict) (idx : nat)
    (containers : list node) (products : list dict) (lg : log)
  : list dict * log :=
  match containers with
  | [] => (products, lg)
  | container :: rest =>
      match _extract_product container selectors with
      | Ok product =>
          if dict_truthy product then
            extract_loop selectors (S idx) rest
              (products ++ [product])
              (lg ++ [(DEBUG,
                       Extracted (idx + 1)
                         (dict_get product "name" (lit "N/A")))])
          else
            extract_loop selectors (S idx) rest products lg
      | Raise e =>
          extract_loop selectors (S idx) rest products
            (lg ++ [(WARNING, ErrorExtracting (idx + 1) e)])
      end
  end.

(** What one call leaves behind: the returned value or the exception,
    the instance, and the log records emitted. *)
Record outcome := mkOutcome {
  returned : result (list dict);
  instance : WebScraper;
  logged : log
}.

(** [WebScraper.parse_products] *)
Definition parse_products (self : WebScraper) (soup : node)
    (selectors : dict) : outcome :=
  let body :=
    container_selector ← getitem selectors "container";
    select soup container_selector in
  match body with
  | Ok containers =>
      let lg := [(INFO, Found (length containers))] in
      let '(products, lg) := extract_loop selectors 0 containers [] lg in
      {| returned := Ok products;
         instance :=
           {| url := url self; timeout := timeout self;
              session := session self; products := products |};
         logged := lg ++ [(INFO, SuccessfullyExtracted (length products))] |}
  | Raise e =>
      {| returned := Raise e;
         instance := self;
         logged := [(ERROR, ErrorParsing e)] |}
  end.

End Extractor.

Arguments select_one {node} select tag selector.
Arguments _extract_product unicode_decimal {node} select get_text_strip
  container selectors.
Arguments extract_loop unicode_decimal {node} select get_text_strip
  selectors idx containers products lg.
Arguments parse_products unicode_decimal {node} select get_text_strip
  self soup selectors.

(** ** The exporter *)

(** A [pandas.DataFrame] without its index: the column labels and the
    rows, each row holding a value under a label or nothing (NaN). *)
Record DataFrame := mkDataFrame {
  columns : list string;
  data : list dict
}.

(** [pd.DataFrame(records)]: the labels are the keys that occur in some
    record.  pandas lists them by first appearance; [export] reorders
    them at once, so the model lists them in the order of the map. *)
Definition DataFrame_of_records (records : list dict) : DataFrame :=
  {| columns := remove_dups (records ≫= (fun r => (map_to_list r).*1));
     data := records |}.

(** [col in df.columns] *)
Definition has_column (df : DataFrame) (col : string) : bool :=
  bool_decide (col ∈ columns df).

(** [df[labels]] for a list of labels: the frame with these columns in
    this order; a label the frame lacks is a [KeyError]. *)
Definition df_getitem (df : DataFrame) (labels : list string)
  : result DataFrame :=
  match List.find (fun l => negb (has_column df l)) labels with
  | Some l => Raise (KeyError l)
  | None =>
      Ok {| columns := labels;
            data :=
              (fun r : dict =>
                 filter (fun kv => kv.1 ∈ labels) r) <$> data df |}
  end.

(** The line terminator that pandas hands to the writer: [os.linesep],
    here the one of POSIX. *)
Definition lineterminator : pystr := [10].

(** One field as [csv.writer] writes it under [QUOTE_MINIMAL]: quoted
    when it holds the delimiter, the quote character or a character of
    the line terminator, with the quotes inside doubled.  A carriage
    return is no such character here and is written as it is. *)
Definition csv_special (c : N) : bool :=
  (c =? 44) || (c =? 34) || existsb (N.eqb c) lineterminator.

Definition csv_field (field : pystr) : pystr :=
  if existsb csv_special field then
    [34] ++ List.flat_map (fun c => if c =? 34 then [34; 34] else [c]) field
         ++ [34]
  else field.

Fixpoint join (sep : pystr) (fields : list pystr) : pystr :=
  match fields with
  | [] => []
  | [f] => f
  | f :: rest => f ++ sep ++ join sep rest
  end.

(** [writer.writerow(fields)], without the line terminator.  A row made
    of one empty field is written as a pair of quotes. *)
Definition csv_writerow (fields : list pystr) : pystr :=
  match fields with
  | [[]] => [34; 34]
  | _ => join [44] (csv_field <$> fields)
  end.

(** [df.to_csv(filename, index=False)]: the lines written, header
    first; a missing value is written as the empty field. *)
Definition to_csv (df : DataFrame) : list pystr :=
  csv_writerow (lit <$> columns df)
  :: ((fun r : dict =>
         csv_writerow ((fun col => dict_get r col []) <$> columns df))
        <$> data df).

(** The files written so far: name to lines. *)
Abbreviation files := (gmap pystr (list pystr)).

Record export_outcome := mkExportOutcome {
  export_returned : result pystr;
  export_files : files;
  export_logged : log
}.

(** The file name [export] writes to: the argument, or a name built
    from the time stamp when the argument is [None] or empty.  [now] is
    [datetime.now().strftime('%Y%m%d_%H%M%S')]. *)
Definition export_filename (now : pystr) (filename : option pystr) : pystr :=
  match filename with
  | Some f =>
      if str_truthy f then f else lit "products_" ++ now ++ lit ".csv"
  | None => lit "products_" ++ now ++ lit ".csv"
  end.

(** The frame that the [try] block of [export] builds, as the lines
    [to_csv] writes. *)
Definition export_lines (products : list dict) : result (list pystr) :=
  let df := DataFrame_of_records products in
  let columns := ["name"; "price"; "rating"]%string in
  df ← df_getitem df (List.filter (has_column df) columns);
  Ok (to_csv df).

(** [CSVExporter.export] on a destination that can be written; [fs]
    holds the files before the call.  The write that fails, with the
    handler that logs and raises again, is in [export_io] below. *)
Definition export (now : pystr) (fs : files) (products : list dict)
    (filename : option pystr) : export_outcome :=
  let filename := export_filename now filename in
  match export_lines products with
  | Ok lines =>
      {| export_returned := Ok filename;
         export_files := <[ filename := lines ]> fs;
         export_logged :=
           [(INFO, Exported filename);
            (INFO, TotalExported (length products))] |}
  | Raise e =>
      {| export_returned := Raise e;
         export_files := fs;
         export_logged := [(ERROR, ErrorExporting e)] |}
  end.

(** ** Vocabulary of the statements *)

(** The keys of a record. *)
Definition record_keys : gset string :=
  {[ "name"%string; "price"%string; "rating"%string ]}.

(** The value of a text field, and of the price field, for the outcome
    of [select_one]. *)
Definition text_or_na {node : Type} (get_text_strip : node -> pystr)
    (elem : option node) : pystr :=
  match elem with
  | Some e => get_text_strip e
  | None => lit "N/A"
  end.

Definition price_or_na (unicode_decimal : N -> bool) {node : Type}
    (get_text_strip : node -> pystr) (elem : option node) : pystr :=
  match elem with
  | Some e => _clean_price unicode_decimal (get_text_strip e)
  | None => lit "N/A"
  end.

(** The records of the containers whose extraction returns, in the order
    of the containers. *)
Definition successes (unicode_decimal : N -> bool) {node : Type}
    (select : node -> pystr -> result (list node))
    (get_text_strip : node -> pystr) (selectors : dict)
    (containers : list node) : list dict :=
  omap (fun container =>
          match _extract_product unicode_decimal select get_text_strip
                  container selectors with
          | Ok product => Some product
          | Raise _ => None
          end) containers.

(** ** A small document model

    Elements and text, queried by CSS type selectors: a fragment of the
    query engine, enough to run the extractor on concrete pages. *)

#[warnings="-register-all"]
Inductive html :=
| Element (tag : pystr) (children : list html)
| Text (s : pystr).

Fixpoint descendants (n : html) : list html :=
  match n with
  | Element _ children =>
      List.flat_map (fun c => c :: descendants c) children
  | Text _ => []
  end.

Definition has_tag (name : pystr) (n : html) : bool :=
  match n with
  | Element tag _ => bool_decide (tag = name)
  | Text _ => false
  end.

Definition is_letter (c : N) : bool :=
  ((65 <=? c) && (c <=? 90)) || ((97 <=? c) && (c <=? 122)).

Definition is_ident_char (c : N) : bool :=
  is_letter c || ((48 <=? c) && (c <=? 57)).

(** The selectors this engine accepts: a tag name.  Anything else is a
    syntax error, as an empty or unbalanced selector is for the real
    engine. *)
Definition valid_type_selector (selector : pystr) : bool :=
  match selector with
  | [] => false
  | c :: rest => is_letter c && forallb is_ident_char rest
  end.

Definition html_select (tag : html) (selector : pystr)
  : result (list html) :=
  if valid_type_selector selector then
    Ok (List.filter (has_tag selector) (descendants tag))
  else Raise (SelectorSyntaxError selector).

Fixpoint stripped_strings (n : html) : list pystr :=
  match n with
  | Element _ children => List.flat_map stripped_strings children
  | Text s => if str_truthy (strip s) then [strip s] else []
  end.

Definition html_get_text_strip (n : html) : pystr :=
  concat (stripped_strings n).

(** One product of a book listing page, and a page of several. *)
Definition book (title price rating : pystr) : html :=
  Element (lit "article")
    [Element (lit "h3") [Text title];
     Element (lit "p") [Text price];
     Element (lit "span") [Text rating]].

Definition book_selectors : dict :=
  {[ "container"%string := lit "article";
     "name"%string := lit "h3";
     "price"%string := lit "p";
     "rating"%string := lit "span" ]}.

(** A listing page: a complete product, and one with a title only. *)
Definition attic_book : html :=
  book (lit "A Light in the Attic") ([163] ++ lit "51.77") (lit "Three").

Definition untitled_book : html :=
  Element (lit "article") [Element (lit "h3") [Text (lit "Untitled")]].

Definition listing : html :=
  Element (lit "html") [Element (lit "body") [attic_book; untitled_book]].

(** The same page without its second product, and a page without
    products. *)
Definition short_listing : html :=
  Element (lit "html") [Element (lit "body") [attic_book]].

Definition empty_page : html := Element (lit "html") [].

Definition books_scraper : WebScraper :=
  WebScraper_init (lit "https://books.toscrape.com/") 10.

(** A configuration without the [rating] key, and one whose [name]
    selector is an unclosed attribute selector. *)
Definition selectors_without_rating : dict :=
  delete "rating"%string book_selectors.

Definition selectors_bad_name : dict :=
  <[ "name"%string := lit "h3[" ]> book_selectors.

Definition attic : dict :=
  {[ "name"%string := lit "A Light in the Attic";
     "price"%string := lit "51.77";
     "rating"%string := lit "Three" ]}.

(** An engine that gives up on an element without children, and a
    listing with such a product between two others; the same listing
    without it. *)
Definition brittle_select (tag : html) (selector : pystr)
  : result (list html) :=
  match tag with
  | Element _ [] => Raise (SelectorSyntaxError selector)
  | _ => html_select tag selector
  end.

Definition hollow_book : html := Element (lit "article") [].

Definition sharp_book : html :=
  book (lit "Sharp Objects") ([163] ++ lit "47.82") (lit "Four").

Definition mixed_listing : html :=
  Element (lit "html")
    [Element (lit "body") [attic_book; hollow_book; sharp_book]].

Definition mixed_listing_cleared : html :=
  Element (lit "html") [Element (lit "body") [attic_book; sharp_book]].

Definition sharp : dict :=
  {[ "name"%string := lit "Sharp Objects";
     "price"%string := lit "47.82";
     "rating"%string := lit "Four" ]}.


(** ** The log records of the loop *)

(** The records that reach the handlers: [logging.basicConfig] sets the
    level to [INFO], and a record below it is dropped. *)
Definition emitted (lg : log) : log :=
  List.filter
    (fun entry : level * message =>
       match entry.1 with DEBUG => false | _ => true end) lg.

(** The warnings of the containers that are skipped, numbered as the
    loop numbers them from the index [idx] on. *)
Fixpoint skip_warnings (unicode_decimal : N -> bool) {node : Type}
    (select : node -> pystr -> result (list node))
    (get_text_strip : node -> pystr) (selectors : dict) (idx : nat)
    (containers : list node) : log :=
  match containers with
  | [] => []
  | container :: rest =>
      match _extract_product unicode_decimal select get_text_strip
              container selectors with
      | Ok _ =>
          skip_warnings unicode_decimal select get_text_strip selectors
            (S idx) rest
      | Raise e =>
          (WARNING, ErrorExtracting (idx + 1) e)
          :: skip_warnings unicode_decimal select get_text_strip selectors
               (S idx) rest
      end
  end.

(** The characters [_clean_price] keeps. *)
Definition price_char (unicode_decimal : N -> bool) (c : N) : bool :=
  unicode_decimal c || (c =? 46) || (c =? 44).

(** The columns among [name], [price], [rating] that some record has. *)
Definition present_columns (products : list dict) : list string :=
  List.filter
    (fun col => existsb (fun r : dict => bool_decide (is_Some (r !! col)))
                  products)
    ["name"; "price"; "rating"]%string.

(** ** The workflow *)

(** What [scrape_website] can raise: the transport error of
    [fetch_page], an exception of the extractor, or the exception of
    [to_csv] when the file cannot be written ([OSError], or an encoding
    error). *)
Inductive failure :=
| RequestException (reason : pystr)
| Raised (e : exn)
| WriteFailed (reason : pystr).

Inductive attempt (A : Type) :=
| Returned (a : A)
| Failed (f : failure).
Arguments Returned {A} a.
Arguments Failed {A} f.

(** The log records of [fetch_page] and [scrape_website], and those of
    the calls they make. *)
Inductive workflow_message :=
| FetchingURL (url : pystr)
| PageFetched
| FailedToFetch (reason : pystr)
| NoProductsFound
| ScrapingFailed (f : failure)
| ExportFailed (f : failure)
| Logged (m : message).

Abbreviation workflow_log := (list (level * workflow_message)).

Definition lift_log (lg : log) : workflow_log :=
  (fun entry : level * message => (entry.1, Logged entry.2)) <$> lg.

(** Truth value of a list: non-empty. *)
Definition list_truthy {A : Type} (l : list A) : bool :=
  match l with [] => false | _ :: _ => true end.

Record workflow_outcome := mkWorkflowOutcome {
  workflow_returned : attempt (option pystr);
  workflow_files : files;
  workflow_logged : workflow_log
}.

(** What one call of [export] leaves behind when the write can fail. *)
Record io_outcome := mkIoOutcome {
  io_returned : attempt pystr;
  io_files : files;
  io_logged : workflow_log
}.

Section ExportIO.

(** The write of [to_csv]: for the files before the call, the name and
    the rows, [None] when the file is written in full, otherwise the
    reason of the exception and the files the failed attempt leaves. *)
Variable write_fails : files -> pystr -> list pystr -> option (pystr * files).

(** [CSVExporter.export] on a file system that can refuse the write:
    the exception of [to_csv] is logged and raised again. *)
Definition export_io (now : pystr) (fs : files) (products : list dict)
    (filename : option pystr) : io_outcome :=
  let filename := export_filename now filename in
  match export_lines products with
  | Ok rows =>
      match write_fails fs filename rows with
      | None =>
          {| io_returned := Returned filename;
             io_files := <[ filename := rows ]> fs;
             io_logged :=
               [(INFO, Logged (Exported filename));
                (INFO, Logged (TotalExported (length products)))] |}
      | Some (reason, fs') =>
          {| io_returned := Failed (WriteFailed reason);
             io_files := fs';
             io_logged := [(ERROR, ExportFailed (WriteFailed reason))] |}
      end
  | Raise e =>
      {| io_returned := Failed (Raised e);
         io_files := fs;
         io_logged := [(ERROR, Logged (ErrorExporting e))] |}
  end.

End ExportIO.

Section Workflow.

Variable unicode_decimal : N -> bool.
Variable node : Type.
Variable select : node -> pystr -> result (list node).
Variable get_text_strip : node -> pystr.
Variable write_fails : files -> pystr -> list pystr -> option (pystr * files).

(** The transport and the parser behind [fetch_page]:
    [session.get(url, timeout=timeout)], [raise_for_status()] and
    [BeautifulSoup(response.content, 'html.parser')] give the page, or
    the reason of a [requests.RequestException]. *)
Variable http_get : pystr -> N -> dict -> pystr + node.

(** [WebScraper.fetch_page] *)
Definition fetch_page (self : WebScraper) : attempt node * workflow_log :=
  let lg := [(INFO, FetchingURL (url self))] in
  match http_get (url self) (timeout self) (session self) with
  | inr soup => (Returned soup, lg ++ [(INFO, PageFetched)])
  | inl reason =>
      (Failed (RequestException reason),
       lg ++ [(ERROR, FailedToFetch reason)])
  end.

(** [scrape_website]; the scraper is built with the default time-out of
    [__init__]. *)
Definition scrape_website (now : pystr) (fs : files) (url : pystr)
    (selectors : dict) (output_file : option pystr) : workflow_outcome :=
  let scraper := WebScraper_init url 10 in
  match fetch_page scraper with
  | (Returned soup, lg) =>
      let parsed :=
        parse_products unicode_decimal select get_text_strip scraper soup
          selectors in
      let lg := lg ++ lift_log (logged parsed) in
      match returned parsed with
      | Ok products =>
          if list_truthy products then
            let exported :=
              export_io write_fails now fs products output_file in
            let lg := lg ++ io_logged exported in
            match io_returned exported with
            | Returned filename =>
                {| workflow_returned := Returned (Some filename);
                   workflow_files := io_files exported;
                   workflow_logged := lg |}
            | Failed f =>
                {| workflow_returned := Failed f;
                   workflow_files := io_files exported;
                   workflow_logged := lg ++ [(ERROR, ScrapingFailed f)] |}
            end
          else
            {| workflow_returned := Returned None;
               workflow_files := fs;
               workflow_logged := lg ++ [(WARNING, NoProductsFound)] |}
      | Raise e =>
          {| workflow_returned := Failed (Raised e);
             workflow_files := fs;
             workflow_logged := lg ++ [(ERROR, ScrapingFailed (Raised e))] |}
      end
  | (Failed f, lg) =>
      {| workflow_returned := Failed f;
         workflow_files := fs;
         workflow_logged := lg ++ [(ERROR, ScrapingFailed f)] |}
  end.

End Workflow.

Arguments fetch_page {node} http_get self.
Arguments scrape_website unicode_decimal {node} select get_text_strip
  write_fails http_get now fs url selectors output_file.

(** A file system that takes every write, and one that takes none. *)
Definition writable (fs : files) (filename : pystr) (rows : list pystr)
  : option (pystr * files) := None.

Definition read_only (fs : files) (filename : pystr) (rows : list pystr)
  : option (pystr * files) := Some (lit "Permission denied", fs).

(** A site that serves the listing page at one address, a page without
    products at another, and nothing elsewhere. *)
Definition books_http (url : pystr) (timeout : N) (headers : dict)
  : pystr + html :=
  if bool_decide (url = lit "https://books.toscrape.com/") then inr listing
  else if bool_decide (url = lit "https://books.toscrape.com/none") then
    inr empty_page
  else inl (lit "404 Client Error: Not Found").

(** ** The configurations of [website_configs.py] *)

Module website_configs.

(** One entry of [WEBSITES]: a dictionary with the keys [name], [url],
    [description], [selectors], and the keys [notes] and [difficulty]
    that an entry may lack. *)
Record config := mkConfig {
  name : pystr;
  url : pystr;
  description : pystr;
  selectors : dict;
  notes : option pystr;
  difficulty : option pystr
}.

Definition quoted (s : pystr) : pystr := [34] ++ s ++ [34].

(** The entries of [WEBSITES]. *)
Definition books_toscrape : config :=
  {| name := lit "Books.toscrape.com";
     url := lit "https://books.toscrape.com/";
     description :=
       [10003] ++ lit " Perfect for testing, explicitly allows scraping";
     selectors :=
       {[ "container"%string := lit "article.product_pod";
          "name"%string := lit "h3 a";
          "price"%string := lit "p.price_color";
          "rating"%string := lit "p.star-rating" ]};
     notes := Some (lit "No authentication needed, good for learning");
     difficulty := None |}.

Definition amazon_example : config :=
  {| name := lit "Amazon";
     url := lit "https://www.amazon.com/s";
     description :=
       lit "Complex JavaScript rendering - requires Selenium";
     selectors :=
       {[ "container"%string :=
            lit "[data-component-type=" ++ quoted (lit "s-search-result")
            ++ lit "]";
          "name"%string := lit "h2 a span";
          "price"%string := lit ".a-price-whole";
          "rating"%string := lit ".a-star-small" ]};
     notes :=
       Some ([9888] ++ lit " Requires: 1) Selenium browser automation 2) User-Agent rotation 3) Proxy rotation");
     difficulty := Some (lit "HARD") |}.

Definition ebay_example : config :=
  {| name := lit "eBay";
     url := lit "https://www.ebay.com/sch/i.html";
     description := lit "Offers API as better alternative";
     selectors :=
       {[ "container"%string := lit ".s-item";
          "name"%string := lit ".s-item__title";
          "price"%string := lit ".s-item__price";
          "rating"%string := lit ".s-item__reviews" ]};
     notes :=
       Some ([128204] ++ lit " eBay provides official API - consider using that instead");
     difficulty := Some (lit "MEDIUM") |}.

Definition walmart_example : config :=
  {| name := lit "Walmart";
     url := lit "https://www.walmart.com/search/";
     description := lit "JavaScript heavy, dynamic content";
     selectors :=
       {[ "container"%string := lit "[data-item-id]";
          "name"%string :=
            lit "a.absolute[href*=" ++ quoted (lit "/ip/") ++ lit "]";
          "price"%string := lit "span.price";
          "rating"%string :=
            lit "div[aria-label*=" ++ quoted (lit "star") ++ lit "]" ]};
     notes :=
       Some ([9888] ++ lit " May require JavaScript rendering (Selenium/Playwright)");
     difficulty := Some (lit "HARD") |}.

Definition quotes_example : config :=
  {| name := lit "Quotes.toscrape.com";
     url := lit "https://quotes.toscrape.com/";
     description := lit "Simple structured website for learning";
     selectors :=
       {[ "container"%string := lit "div.quote";
          "name"%string := lit "span.text";
          "price"%string := lit "span.tag-item";
          "rating"%string := lit "small.author" ]};
     notes := Some (lit "Great for learning basic scraping techniques");
     difficulty := Some (lit "EASY") |}.

Definition generic_store : config :=
  {| name := lit "Generic E-commerce Store";
     url := lit "https://example-ecommerce.com/products";
     description := lit "Template for static HTML e-commerce sites";
     selectors :=
       {[ "container"%string := lit "div.product, article.product-item";
          "name"%string := lit "h3.product-name, .product-title";
          "price"%string := lit "span.price, .product-price";
          "rating"%string :=
            lit ".rating, .stars, [class*=" ++ quoted (lit "review")
            ++ lit "]" ]};
     notes :=
       Some (lit "Customize selectors based on actual site structure");
     difficulty := Some (lit "EASY") |}.

(** [WEBSITES], in the order of the source. *)
Definition WEBSITES : list (pystr * config) :=
  [(lit "books_toscrape", books_toscrape);
   (lit "amazon_example", amazon_example);
   (lit "ebay_example", ebay_example);
   (lit "walmart_example", walmart_example);
   (lit "quotes_example", quotes_example);
   (lit "generic_store", generic_store)].

(** [WEBSITES[key]] when [key in WEBSITES]. *)
Fixpoint lookup_site (key : pystr) (sites : list (pystr * config))
  : option config :=
  match sites with
  | [] => None
  | (k, c) :: rest =>
      if bool_decide (k = key) then Some c else lookup_site key rest
  end.

(** [get_config]: the entry, or [None] after printing the keys there
    are.  The second component holds the lines printed. *)
Definition get_config (website_key : pystr) : option config * list pystr :=
  match lookup_site website_key WEBSITES with
  | Some c => (Some c, [])
  | None =>
      (None,
       [lit "Website '" ++ website_key ++ lit "' not found";
        lit "Available websites:"]
       ++ ((fun kc : pystr * config => lit "  - " ++ kc.1) <$> WEBSITES))
  end.

End website_configs.

(** ** The multi-page example of [website_configs.py] *)

(** [str(n)] for an integer that is not negative. *)
Definition str_of_nat (n : nat) : pystr :=
  lit (NilEmpty.string_of_uint (Nat.to_uint n)).

(** The lines [example_2_multiple_pages] prints. *)
Inductive printed :=
| ScrapingPage (page : nat)
| Saved (count : nat) (filename : pystr).

Record example_outcome := mkExampleOutcome {
  example_returned : attempt unit;
  example_files : files;
  example_logged : workflow_log;
  example_printed : list printed;
  example_slept : nat
}.

Section MultiPage.

Variable unicode_decimal : N -> bool.
Variable node : Type.
Variable select : node -> pystr -> result (list node).
Variable get_text_strip : node -> pystr.
Variable write_fails : files -> pystr -> list pystr -> option (pystr * files).
Variable http_get : pystr -> N -> dict -> pystr + node.

(** The address of one catalogue page. *)
Definition page_url (config : website_configs.config) (page : nat) : pystr :=
  website_configs.url config ++ lit "catalogue/page-" ++ str_of_nat page
  ++ lit ".html".

(** The [for page in range(1, 4)] loop: the products collected, the log,
    the lines printed and the seconds slept as the iteration finds
    them.  An exception of [fetch_page] or [parse_products] leaves the
    loop. *)
Fixpoint pages_loop (config : website_configs.config) (pages : list nat)
    (all_products : list dict) (lg : workflow_log) (out : list printed)
    (slept : nat)
  : attempt (list dict) * workflow_log * list printed * nat :=
  match pages with
  | [] => (Returned all_products, lg, out, slept)
  | page :: rest =>
      let url := page_url config page in
      let out := out ++ [ScrapingPage page] in
      let scraper := WebScraper_init url 10 in
      match fetch_page http_get scraper with
      | (Returned soup, fetch_log) =>
          let parsed :=
            parse_products unicode_decimal select get_text_strip scraper
              soup (website_configs.selectors config) in
          let lg := lg ++ fetch_log ++ lift_log (logged parsed) in
          match returned parsed with
          | Ok products =>
              pages_loop config rest (all_products ++ products) lg out
                (slept + 1)
          | Raise e => (Failed (Raised e), lg, out, slept)
          end
      | (Failed f, fetch_log) => (Failed f, lg ++ fetch_log, out, slept)
      end
  end.

(** What fetching and searching one catalogue page gives: its records,
    or the exception that leaves the loop. *)
Definition page_outcome (config : website_configs.config) (page : nat)
  : attempt (list dict) :=
  let scraper := WebScraper_init (page_url config page) 10 in
  match fetch_page http_get scraper with
  | (Returned soup, _) =>
      match returned
              (parse_products unicode_decimal select get_text_strip scraper
                 soup (website_configs.selectors config)) with
      | Ok products => Returned products
      | Raise e => Failed (Raised e)
      end
  | (Failed f, _) => Failed f
  end.

(** [website_configs.example_2_multiple_pages] *)
Definition example_2_multiple_pages (now : pystr) (fs : files)
  : example_outcome :=
  match website_configs.lookup_site (lit "books_toscrape")
          website_configs.WEBSITES with
  | Some config =>
      match pages_loop config (seq 1 3) [] [] [] 0 with
      | (Returned all_products, lg, out, slept) =>
          let exported :=
            export_io write_fails now fs all_products
              (Some (lit "all_books.csv")) in
          let lg := lg ++ io_logged exported in
          match io_returned exported with
          | Returned filename =>
              {| example_returned := Returned tt;
                 example_files := io_files exported;
                 example_logged := lg;
                 example_printed :=
                   out ++ [Saved (length all_products) filename];
                 example_slept := slept |}
          | Failed f =>
              {| example_returned := Failed f;
                 example_files := io_files exported;
                 example_logged := lg;
                 example_printed := out;
                 example_slept := slept |}
          end
      | (Failed f, lg, out, slept) =>
          {| example_returned := Failed f;
             example_files := fs;
             example_logged := lg;
             example_printed := out;
             example_slept := slept |}
      end
  | None =>
      {| example_returned := Failed (Raised (KeyError "books_toscrape"));
         example_files := fs;
         example_logged := [];
         example_printed := [];
         example_slept := 0 |}
  end.

End MultiPage.

Arguments page_url config page : simpl never.
Arguments pages_loop unicode_decimal {node} select get_text_strip http_get
  config pages all_products lg out slept.
Arguments page_outcome unicode_decimal {node} select get_text_strip
  http_get config page.
Arguments example_2_multiple_pages unicode_decimal {node} select
  get_text_strip write_fails http_get now fs.

(** The selectors of the books site on the pages above, where the tag
    alone tells the elements apart. *)
Definition books_select (tag : html) (selector : pystr)
  : result (list html) :=
  if bool_decide (selector = lit "article.product_pod") then
    html_select tag (lit "article")
  else if bool_decide (selector = lit "h3 a") then html_select tag (lit "h3")
  else if bool_decide (selector = lit "p.price_color") then
    html_select tag (lit "p")
  else if bool_decide (selector = lit "p.star-rating") then
    html_select tag (lit "span")
  else html_select tag selector.

(** A catalogue of three pages. *)
Definition catalogue_http (url : pystr) (timeout : N) (headers : dict)
  : pystr + html :=
  if bool_decide
       (url = lit "https://books.toscrape.com/catalogue/page-1.html") then
    inr listing
  else if bool_decide
            (url = lit "https://books.toscrape.com/catalogue/page-2.html") then
    inr empty_page
  else if bool_decide
            (url = lit "https://books.toscrape.com/catalogue/page-3.html") then
    inr short_listing
  else inl (lit "404 Client Error: Not Found").

(** The catalogue when its second page is gone. *)
Definition broken_catalogue_http (url : pystr) (timeout : N) (headers : dict)
  : pystr + html :=
  if bool_decide
       (url = lit "https://books.toscrape.com/catalogue/page-1.html") then
    inr listing
  else inl (lit "404 Client Error: Not Found").

(** A product with two titles, two prices and two ratings. *)
Definition crowded_book : html :=
  Element (lit "article")
    [Element (lit "h3") [Text (lit "A Light in the Attic")];
     Element (lit "h3") [Text (lit "Sharp Objects")];
     Element (lit "p") [Text ([163] ++ lit "51.77")];
     Element (lit "p") [Text ([163] ++ lit "47.82")];
     Element (lit "span") [Text (lit "Three")];
     Element (lit "span") [Text (lit "Four")]].

(** The record of the product with a title only. *)
Definition untitled : dict :=
  {[ "name"%string := lit "Untitled";
     "price"%string := lit "N/A";
     "rating"%string := lit "N/A" ]}.


(** * Properties *)

(** ** Strings *)

Lemma lstrip_no_space (s : pystr) :
  forallb (fun c => negb (py_isspace c)) s = true -> lstrip s = s.
Proof.
  destruct s as [|c s]; simpl; [done|].
  intros [Hc _]%andb_true_iff. by apply negb_true_iff in Hc as ->.
Qed.

Lemma strip_no_space (s : pystr) :
  forallb (fun c => negb (py_isspace c)) s = true -> strip s = s.
Proof.
  intros Hs. unfold strip, rstrip. rewrite (lstrip_no_space s Hs).
  rewrite lstrip_no_space, rev_involutive; [done|].
  apply forallb_forall. intros c Hc%in_rev.
  by apply (proj1 (forallb_forall _ _) Hs).
Qed.

Lemma in_ranges_disjoint (rs ws : list (N * N)) (c : N) :
  forallb (fun r => forallb (fun w => (r.2 <? w.1) || (w.2 <? r.1)) ws) rs
    = true ->
  in_ranges rs c = true -> in_ranges ws c = false.
Proof.
  intros Hd [r [Hr Hc]]%existsb_exists.
  apply not_true_is_false. intros [w [Hw Hcw]]%existsb_exists.
  pose proof (proj1 (forallb_forall _ _) Hd r Hr) as Hrw.
  pose proof (proj1 (forallb_forall _ _) Hrw w Hw) as H.
  apply andb_true_iff in Hc as [?%N.leb_le ?%N.leb_le].
  apply andb_true_iff in Hcw as [?%N.leb_le ?%N.leb_le].
  apply orb_true_iff in H as [?%N.ltb_lt | ?%N.ltb_lt]; lia.
Qed.

Lemma in_ranges_above (rs : list (N * N)) (bound c : N) :
  forallb (fun r => bound <=? r.1) rs = true ->
  c < bound -> in_ranges rs c = false.
Proof.
  intros Hb Hc. apply not_true_is_false.
  intros [r [Hr Hin]]%existsb_exists.
  pose proof (proj1 (forallb_forall _ _) Hb r Hr) as H%N.leb_le.
  apply andb_true_iff in Hin as [?%N.leb_le _]. lia.
Qed.

Lemma in_ranges_cons (r : N * N) (rs : list (N * N)) (c : N) :
  in_ranges (r :: rs) c = ((r.1 <=? c) && (c <=? r.2)) || in_ranges rs c.
Proof. reflexivity. Qed.

(** The Unicode 14 table meets what the development asks of a digit
    class. *)
Lemma unicode14_latin1 (c : N) :
  c < 256 -> unicode14_decimal c = (48 <=? c) && (c <=? 57).
Proof.
  intros Hc. unfold unicode14_decimal, nd_ranges.
  rewrite in_ranges_cons, (in_ranges_above _ 256 c); [|by vm_compute|done].
  by rewrite orb_false_r.
Qed.

Lemma unicode14_not_space (c : N) :
  unicode14_decimal c = true -> py_isspace c = false.
Proof. apply in_ranges_disjoint. by vm_compute. Qed.

(** ** Price normalisation *)

Section CleanPriceFacts.

Variable unicode_decimal : N -> bool.

(** Below U+0100 the decimal digits are [0] to [9]. *)
Hypothesis decimal_latin1 :
  forall c, c < 256 -> unicode_decimal c = (48 <=? c) && (c <=? 57).

(** No decimal digit is white space. *)
Hypothesis decimal_not_space :
  forall c, unicode_decimal c = true -> py_isspace c = false.

Let kept (c : N) : bool := unicode_decimal c || (c =? 46) || (c =? 44).

Lemma re_sub_delete_junk (s : pystr) :
  re_sub_delete (price_junk unicode_decimal) s = List.filter kept s.
Proof.
  unfold re_sub_delete, price_junk, kept.
  induction s as [|c s IH]; simpl; [done|].
  rewrite negb_involutive, IH. done.
Qed.

Lemma kept_not_space (c : N) : kept c = true -> py_isspace c = false.
Proof.
  unfold kept.
  intros [[H | ->%N.eqb_eq]%orb_true_iff | ->%N.eqb_eq]%orb_true_iff;
    [by apply decimal_not_space | done | done].
Qed.

Lemma filter_kept_no_space (s : pystr) :
  forallb (fun c => negb (py_isspace c)) (List.filter kept s) = true.
Proof.
  apply forallb_forall. intros c [_ Hc]%filter_In.
  by rewrite (kept_not_space c Hc).
Qed.

Lemma filter_kept_idem (s : pystr) :
  List.filter kept (List.filter kept s) = List.filter kept s.
Proof.
  induction s as [|c s IH]; simpl; [done|].
  destruct (kept c) eqn:Hc; simpl; [|done]. by rewrite Hc, IH.
Qed.

(** The trim of [_clean_price] has nothing to remove. *)
Lemma clean_price_filter (s : pystr) :
  _clean_price unicode_decimal s =
    match List.filter kept s with
    | [] => lit "N/A"
    | c :: rest => c :: rest
    end.
Proof.
  unfold _clean_price. rewrite re_sub_delete_junk.
  pose proof (filter_kept_no_space s) as Hs.
  destruct (List.filter kept s) as [|c rest]; simpl str_truthy; cbv iota.
  - done.
  - by apply strip_no_space.
Qed.

Lemma kept_latin1 (c : N) :
  c < 256 -> kept c = ((48 <=? c) && (c <=? 57)) || (c =? 46) || (c =? 44).
Proof. intros Hc. unfold kept. by rewrite decimal_latin1. Qed.

Lemma filter_kept_latin1 (s : pystr) :
  forallb (fun c => c <? 256) s = true ->
  List.filter kept s =
    List.filter
      (fun c => ((48 <=? c) && (c <=? 57)) || (c =? 46) || (c =? 44)) s.
Proof.
  induction s as [|c s IH]; simpl; [done|].
  intros [Hc%N.ltb_lt Hs]%andb_true_iff.
  by rewrite (kept_latin1 c Hc), (IH Hs).
Qed.

(** C2. [_clean_price] deletes every character that is neither a
    decimal digit nor [.] nor [,]; the result is what is left, and
    ["N/A"] when nothing is left.  This is the rule of the
    specification (delete, trim, test for emptiness): the trim finds
    no white space.  On ["£51.77"] the result is ["51.77"], on
    ["$1,234.56"] it is ["1,234.56"], on ["Free"] it is ["N/A"]. *)
Theorem C2_clean_price_rule :
  (forall s, _clean_price unicode_decimal s
             = normalize_price_spec unicode_decimal s)
  /\ (forall s,
        _clean_price unicode_decimal s =
          match List.filter
                  (fun c => unicode_decimal c || (c =? 46) || (c =? 44)) s
          with
          | [] => lit "N/A"
          | c :: rest => c :: rest
          end)
  /\ _clean_price unicode_decimal ([163] ++ lit "51.77") = lit "51.77"
  /\ _clean_price unicode_decimal (lit "$1,234.56") = lit "1,234.56"
  /\ _clean_price unicode_decimal (lit "Free") = lit "N/A".
Proof.
  split; [|split; [exact clean_price_filter|]].
  - intros s. rewrite clean_price_filter. unfold normalize_price_spec.
    fold kept. rewrite (strip_no_space _ (filter_kept_no_space s)).
    by destruct (List.filter kept s).
  - repeat split; rewrite clean_price_filter, filter_kept_latin1;
      by vm_compute.
Qed.

(** C3. Price normalisation is idempotent. *)
Theorem C3_clean_price_idempotent (s : pystr) :
  _clean_price unicode_decimal (_clean_price unicode_decimal s)
  = _clean_price unicode_decimal s.
Proof.
  rewrite (clean_price_filter s).
  destruct (List.filter kept s) as [|c rest] eqn:Hs.
  - rewrite clean_price_filter, filter_kept_latin1; by vm_compute.
  - rewrite clean_price_filter, <- Hs, filter_kept_idem. by rewrite Hs.
Qed.

End CleanPriceFacts.

(** ** Extraction of one container *)

Section ExtractorFacts.

Variable unicode_decimal : N -> bool.
Variable node : Type.
Variable select : node -> pystr -> result (list node).
Variable get_text_strip : node -> pystr.

Local Abbreviation extract :=
  (_extract_product unicode_decimal select get_text_strip).
Local Abbreviation loop :=
  (extract_loop unicode_decimal select get_text_strip).
Local Abbreviation parse :=
  (parse_products unicode_decimal select get_text_strip).
Local Abbreviation records_of :=
  (successes unicode_decimal select get_text_strip).
Local Abbreviation text_or_na := (text_or_na get_text_strip).
Local Abbreviation price_or_na :=
  (price_or_na unicode_decimal get_text_strip).

Lemma select_one_no_match (tag : node) (selector : pystr) :
  select tag selector = Ok [] -> select_one select tag selector = Ok None.
Proof. unfold select_one. by intros ->. Qed.

Lemma select_one_raises (tag : node) (selector : pystr) (e : exn) :
  select tag selector = Raise e -> select_one select tag selector = Raise e.
Proof. unfold select_one. by intros ->. Qed.

(** A returned record comes from three successful queries. *)
Lemma extract_product_Ok (container : node) (selectors product : dict) :
  extract container selectors = Ok product ->
  exists ns ps rs ne pe re,
    selectors !! "name"%string = Some ns
    /\ selectors !! "price"%string = Some ps
    /\ selectors !! "rating"%string = Some rs
    /\ select_one select container ns = Ok ne
    /\ select_one select container ps = Ok pe
    /\ select_one select container rs = Ok re
    /\ product =
         <[ "rating"%string := text_or_na re ]>
           (<[ "price"%string := price_or_na pe ]>
              (<[ "name"%string := text_or_na ne ]> ∅)).
Proof.
  unfold _extract_product, getitem.
  destruct (selectors !! "name"%string) as [ns|]; [|done]. simpl.
  destruct (select_one select container ns) as [ne|] eqn:Hne; [|done].
  simpl.
  destruct (selectors !! "price"%string) as [ps|]; [|done]. simpl.
  destruct (select_one select container ps) as [pe|] eqn:Hpe; [|done].
  simpl.
  destruct (selectors !! "rating"%string) as [rs|]; [|done]. simpl.
  destruct (select_one select container rs) as [re|] eqn:Hre; [|done].
  simpl.
  intros [= <-]. exists ns, ps, rs, ne, pe, re.
  split_and!; try done. by destruct pe.
Qed.

Lemma extract_product_dom (container : node) (selectors product : dict) :
  extract container selectors = Ok product -> dom product = record_keys.
Proof.
  intros (ns & ps & rs & ne & pe & re & _ & _ & _ & _ & _ & _ & ->)
    %extract_product_Ok.
  rewrite !dom_insert_L, dom_empty_L. unfold record_keys. set_solver.
Qed.

Lemma extract_product_truthy (container : node) (selectors product : dict) :
  extract container selectors = Ok product -> dict_truthy product = true.
Proof.
  intros (ns & ps & rs & ne & pe & re & _ & _ & _ & _ & _ & _ & ->)
    %extract_product_Ok.
  apply bool_decide_eq_true. apply insert_non_empty.
Qed.

Lemma extract_product_sentinel (container : node)
    (selectors product : dict) (field : string) (selector : pystr) :
  extract container selectors = Ok product ->
  field ∈ ["name"; "price"; "rating"]%string ->
  selectors !! field = Some selector ->
  select container selector = Ok [] ->
  product !! field = Some (lit "N/A").
Proof.
  intros (ns & ps & rs & ne & pe & re & Hn & Hp & Hr & Hne & Hpe & Hre & ->)
    %extract_product_Ok Hfield Hsel Hnone%select_one_no_match.
  repeat (apply elem_of_cons in Hfield as [-> | Hfield]);
    [| | |by apply elem_of_nil in Hfield].
  - assert (ne = None) as -> by congruence.
    by rewrite lookup_insert_ne, lookup_insert_ne, lookup_insert_eq.
  - assert (pe = None) as -> by congruence.
    by rewrite lookup_insert_ne, lookup_insert_eq.
  - assert (re = None) as -> by congruence.
    by rewrite lookup_insert_eq.
Qed.

(** A field selector the engine rejects makes the extraction of the
    container raise. *)
Lemma extract_product_field_raises (container : node) (selectors : dict)
    (field : string) (selector : pystr) (e : exn) :
  field ∈ ["name"; "price"; "rating"]%string ->
  selectors !! field = Some selector ->
  select container selector = Raise e ->
  exists e', extract container selectors = Raise e'.
Proof.
  intros Hfield Hsel Hraise%select_one_raises.
  destruct (extract container selectors) as [product|e'] eqn:Hex;
    [|by exists e'].
  apply extract_product_Ok in Hex
    as (ns & ps & rs & ne & pe & re & Hn & Hp & Hr & Hne & Hpe & Hre & _).
  repeat (apply elem_of_cons in Hfield as [-> | Hfield]);
    [| | |by apply elem_of_nil in Hfield]; congruence.
Qed.

(** When the three selectors are present and accepted, a record is
    returned. *)
Lemma extract_product_returns (container : node) (selectors : dict)
    (ns ps rs : pystr) (nm pm rm : list node) :
  selectors !! "name"%string = Some ns ->
  selectors !! "price"%string = Some ps ->
  selectors !! "rating"%string = Some rs ->
  select container ns = Ok nm ->
  select container ps = Ok pm ->
  select container rs = Ok rm ->
  extract container selectors =
    Ok (<[ "rating"%string := text_or_na (head rm) ]>
          (<[ "price"%string := price_or_na (head pm) ]>
             (<[ "name"%string := text_or_na (head nm) ]> ∅))).
Proof.
  intros Hn Hp Hr Hnm Hpm Hrm.
  unfold _extract_product, getitem, select_one.
  rewrite Hn. simpl. rewrite Hnm. simpl.
  rewrite Hp. simpl. rewrite Hpm. simpl.
  rewrite Hr. simpl. rewrite Hrm. simpl.
  by destruct (head pm).
Qed.

(** ** The loop over the containers *)

Lemma successes_cons_Ok (selectors : dict) (c : node) (cs : list node)
    (product : dict) :
  extract c selectors = Ok product ->
  records_of selectors (c :: cs) = product :: records_of selectors cs.
Proof. unfold successes. simpl. by intros ->. Qed.

Lemma successes_cons_Raise (selectors : dict) (c : node) (cs : list node)
    (e : exn) :
  extract c selectors = Raise e ->
  records_of selectors (c :: cs) = records_of selectors cs.
Proof. unfold successes. simpl. by intros ->. Qed.

Lemma successes_app (selectors : dict) (cs1 cs2 : list node) :
  records_of selectors (cs1 ++ cs2)
  = records_of selectors cs1 ++ records_of selectors cs2.
Proof. apply omap_app. Qed.

Lemma extract_loop_products (selectors : dict) (cs : list node) :
  forall (idx : nat) (acc : list dict) (lg : log),
    (loop selectors idx cs acc lg).1 = acc ++ records_of selectors cs.
Proof.
  induction cs as [|c cs IH]; intros idx acc lg; cbn [extract_loop].
  - simpl. by rewrite app_nil_r.
  - destruct (extract c selectors) as [product|e] eqn:Hex.
    + rewrite (extract_product_truthy _ _ _ Hex), IH.
      rewrite (successes_cons_Ok _ _ _ _ Hex). by rewrite <- app_assoc.
    + rewrite IH. by rewrite (successes_cons_Raise _ _ _ _ Hex).
Qed.

Lemma extract_loop_log_grows (selectors : dict) (cs : list node) :
  forall (idx : nat) (acc : list dict) (lg : log),
    exists more, (loop selectors idx cs acc lg).2 = lg ++ more.
Proof.
  induction cs as [|c cs IH]; intros idx acc lg; simpl.
  - exists []. by rewrite app_nil_r.
  - destruct (extract c selectors) as [product|e] eqn:Hex.
    + rewrite (extract_product_truthy _ _ _ Hex).
      destruct (IH (S idx) (acc ++ [product])
                  (lg ++ [(DEBUG, Extracted (idx + 1)
                             (dict_get product "name" (lit "N/A")))]))
        as [more ->].
      rewrite <- app_assoc. by eexists.
    + destruct (IH (S idx) acc
                  (lg ++ [(WARNING, ErrorExtracting (idx + 1) e)]))
        as [more ->].
      rewrite <- app_assoc. by eexists.
Qed.

(** The container at position [length pre] that raises is reported
    under its number, counted from one. *)
Lemma extract_loop_warning (selectors : dict) (c : node)
    (post : list node) (e : exn) (pre : list node) :
  extract c selectors = Raise e ->
  forall (idx : nat) (acc : list dict) (lg : log),
    (WARNING, ErrorExtracting (idx + length pre + 1) e)
      ∈ (loop selectors idx (pre ++ c :: post) acc lg).2.
Proof.
  intros Hex. induction pre as [|c' pre IH]; intros idx acc lg; simpl.
  - rewrite Hex.
    destruct (extract_loop_log_grows selectors post (S idx) acc
                (lg ++ [(WARNING, ErrorExtracting (idx + 1) e)]))
      as [more ->].
    rewrite Nat.add_0_r. set_solver.
  - replace (idx + S (length pre) + 1)%nat
      with (S idx + length pre + 1)%nat by lia.
    destruct (extract c' selectors) as [product|e'] eqn:Hex'.
    + rewrite (extract_product_truthy _ _ _ Hex'). apply IH.
    + apply IH.
Qed.

(** ** [parse_products] *)

Lemma container_query_Ok (soup : node) (selectors : dict)
    (selector : pystr) (containers : list node) :
  selectors !! "container"%string = Some selector ->
  select soup selector = Ok containers ->
  (selector ← getitem selectors "container"; select soup selector)
    = Ok containers.
Proof. intros Hsel Hcs. unfold getitem. by rewrite Hsel. Qed.

Lemma parse_products_Ok (self : WebScraper) (soup : node)
    (selectors : dict) (containers : list node) :
  (selector ← getitem selectors "container"; select soup selector)
    = Ok containers ->
  returned (parse self soup selectors)
    = Ok (records_of selectors containers)
  /\ instance (parse self soup selectors)
     = {| url := url self; timeout := timeout self;
          session := session self;
          products := records_of selectors containers |}
  /\ logged (parse self soup selectors)
     = (loop selectors 0 containers []
          [(INFO, Found (length containers))]).2
       ++ [(INFO, SuccessfullyExtracted
                    (length (records_of selectors containers)))].
Proof.
  intros Hcs. unfold parse_products. rewrite Hcs.
  pose proof (extract_loop_products selectors containers 0 []
                [(INFO, Found (length containers))]) as Hproducts.
  destruct (loop selectors 0 containers []
              [(INFO, Found (length containers))]) as [ps lg].
  simpl in *. by subst ps.
Qed.

Lemma parse_products_Raise (self : WebScraper) (soup : node)
    (selectors : dict) (e : exn) :
  (selector ← getitem selectors "container"; select soup selector)
    = Raise e ->
  parse self soup selectors
  = {| returned := Raise e; instance := self;
       logged := [(ERROR, ErrorParsing e)] |}.
Proof. intros H. unfold parse_products. by rewrite H. Qed.

Lemma successes_origin (selectors : dict) (containers : list node)
    (record : dict) :
  record ∈ records_of selectors containers <->
  exists container,
    container ∈ containers /\ extract container selectors = Ok record.
Proof.
  unfold successes. rewrite list_elem_of_omap.
  split; intros (c & Hc & H); exists c; (split; [done|]).
  - destruct (extract c selectors); congruence.
  - by rewrite H.
Qed.

(** The records are those of a subsequence of the containers, one for
    one and in order. *)
Lemma successes_sublist (selectors : dict) (containers : list node) :
  exists kept,
    sublist kept containers
    /\ Forall2 (fun c r => extract c selectors = Ok r) kept
         (records_of selectors containers).
Proof.
  induction containers as [|c cs (kept & Hsub & Hall)].
  - exists []. split; [done|]. constructor.
  - destruct (extract c selectors) as [product|e] eqn:Hex.
    + exists (c :: kept). rewrite (successes_cons_Ok _ _ _ _ Hex).
      split; [by apply sublist_skip | by constructor].
    + exists kept. rewrite (successes_cons_Raise _ _ _ _ Hex).
      split; [by apply sublist_cons | done].
Qed.

Lemma successes_all (selectors : dict) (containers : list node)
    (records : list dict) :
  Forall2 (fun c r => extract c selectors = Ok r) containers records ->
  records_of selectors containers = records.
Proof.
  induction 1 as [|c r cs rs Hex _ IH]; [done|].
  by rewrite (successes_cons_Ok _ _ _ _ Hex), IH.
Qed.

(** ** The claims about extraction *)

(** C1. Every record that extraction produces for a matched container
    holds exactly the keys [name], [price] and [rating], each with a
    string value, and it appears in the output; a field whose selector
    matches no node below the container holds ["N/A"].  A container
    whose three field selectors the engine accepts does produce a
    record. *)
Theorem C1_record_shape (self : WebScraper) (soup : node)
    (selectors : dict) (selector : pystr) (containers : list node) :
  selectors !! "container"%string = Some selector ->
  select soup selector = Ok containers ->
  exists records,
    returned (parse self soup selectors) = Ok records
    /\ Forall (fun record => dom record = record_keys) records
    /\ (forall container record,
          container ∈ containers ->
          extract container selectors = Ok record ->
          record ∈ records
          /\ dom record = record_keys
          /\ forall field field_selector,
               field ∈ ["name"; "price"; "rating"]%string ->
               selectors !! field = Some field_selector ->
               select container field_selector = Ok [] ->
               record !! field = Some (lit "N/A"))
    /\ (forall container,
          container ∈ containers ->
          (forall field, field ∈ ["name"; "price"; "rating"]%string ->
             exists field_selector found,
               selectors !! field = Some field_selector
               /\ select container field_selector = Ok found) ->
          exists record, extract container selectors = Ok record).
Proof.
  intros Hsel Hcs.
  destruct (parse_products_Ok self soup selectors containers
              (container_query_Ok _ _ _ _ Hsel Hcs)) as (Hret & _ & _).
  exists (records_of selectors containers). split_and!; [done| | |].
  - apply Forall_forall. intros record (c & _ & Hex)%successes_origin.
    by apply extract_product_dom in Hex.
  - intros container record Hin Hex. split_and!.
    + apply successes_origin. by exists container.
    + by apply extract_product_dom in Hex.
    + intros field fsel. by apply extract_product_sentinel.
  - intros container _ Hfields.
    destruct (Hfields "name"%string) as (ns & nm & Hn & Hnm);
      [set_solver|].
    destruct (Hfields "price"%string) as (ps & pm & Hp & Hpm);
      [set_solver|].
    destruct (Hfields "rating"%string) as (rs & rm & Hr & Hrm);
      [set_solver|].
    eexists. by eapply extract_product_returns.
Qed.

(** C4. When the container selector matches no node, [parse_products]
    returns the empty list and raises nothing. *)
Theorem C4_no_container_empty (self : WebScraper) (soup : node)
    (selectors : dict) (selector : pystr) :
  selectors !! "container"%string = Some selector ->
  select soup selector = Ok [] ->
  returned (parse self soup selectors) = Ok [].
Proof.
  intros Hsel Hcs.
  by destruct (parse_products_Ok self soup selectors []
                 (container_query_Ok _ _ _ _ Hsel Hcs)) as (-> & _ & _).
Qed.

(** C5. A container whose extraction raises is skipped: the call still
    returns, a warning carrying the number of the container is logged,
    and the records are those of the containers before it followed by
    those of the containers after it, which is what a document without
    the failing container yields. *)
Theorem C5_failing_container_skipped (self : WebScraper)
    (soup soup' : node) (selectors : dict) (selector : pystr)
    (pre post : list node) (c : node) (e : exn) :
  selectors !! "container"%string = Some selector ->
  select soup selector = Ok (pre ++ c :: post) ->
  select soup' selector = Ok (pre ++ post) ->
  extract c selectors = Raise e ->
  returned (parse self soup selectors)
    = Ok (records_of selectors pre ++ records_of selectors post)
  /\ returned (parse self soup selectors)
     = returned (parse self soup' selectors)
  /\ (WARNING, ErrorExtracting (length pre + 1) e)
       ∈ logged (parse self soup selectors).
Proof.
  intros Hsel Hcs Hcs' Hex.
  destruct (parse_products_Ok self soup selectors _
              (container_query_Ok _ _ _ _ Hsel Hcs)) as (Hret & _ & Hlog).
  destruct (parse_products_Ok self soup' selectors _
              (container_query_Ok _ _ _ _ Hsel Hcs')) as (Hret' & _ & _).
  rewrite Hret, Hret', Hlog.
  rewrite !successes_app, (successes_cons_Raise _ _ _ _ Hex).
  split_and!; [done|done|].
  apply elem_of_app. left.
  apply (extract_loop_warning selectors c post e pre Hex 0).
Qed.

(** C9. The records come out in the order of the containers: they are
    the records of the containers whose extraction returns, one for
    one along a subsequence of the containers; when every extraction
    returns, the i-th record is that of the i-th container. *)
Theorem C9_document_order (self : WebScraper) (soup : node)
    (selectors : dict) (selector : pystr) (containers : list node) :
  selectors !! "container"%string = Some selector ->
  select soup selector = Ok containers ->
  exists records,
    returned (parse self soup selectors) = Ok records
    /\ records = records_of selectors containers
    /\ (exists kept,
          sublist kept containers
          /\ Forall2 (fun c r => extract c selectors = Ok r) kept records)
    /\ (forall all,
          Forall2 (fun c r => extract c selectors = Ok r) containers all ->
          records = all).
Proof.
  intros Hsel Hcs.
  destruct (parse_products_Ok self soup selectors containers
              (container_query_Ok _ _ _ _ Hsel Hcs)) as (Hret & _ & _).
  exists (records_of selectors containers). split_and!; [done|done| |].
  - apply successes_sublist.
  - apply successes_all.
Qed.

(** C6, as the code has it.  A field selector that the engine rejects
    inside one container makes the extraction of that container
    raise: the container is skipped with a warning and yields no
    record, and the call goes on with the other containers.  The call
    itself raises exactly when looking up or evaluating the container
    selector raises. *)
Theorem C6_field_selector_error_skips (self : WebScraper) (soup : node)
    (selectors : dict) (selector : pystr) (pre post : list node)
    (c : node) (field : string) (field_selector : pystr) (e : exn) :
  selectors !! "container"%string = Some selector ->
  select soup selector = Ok (pre ++ c :: post) ->
  field ∈ ["name"; "price"; "rating"]%string ->
  selectors !! field = Some field_selector ->
  select c field_selector = Raise e ->
  (exists e',
     extract c selectors = Raise e'
     /\ (WARNING, ErrorExtracting (length pre + 1) e')
          ∈ logged (parse self soup selectors))
  /\ returned (parse self soup selectors)
     = Ok (records_of selectors pre ++ records_of selectors post)
  /\ (forall soup0 selectors0 e0,
        returned (parse self soup0 selectors0) = Raise e0 <->
        (s ← getitem selectors0 "container"; select soup0 s) = Raise e0).
Proof.
  intros Hsel Hcs Hfield Hfsel Hraise.
  destruct (extract_product_field_raises c selectors field field_selector
              e Hfield Hfsel Hraise) as [e' Hex].
  destruct (parse_products_Ok self soup selectors _
              (container_query_Ok _ _ _ _ Hsel Hcs)) as (Hret & _ & Hlog).
  split_and!.
  - exists e'. split; [done|]. rewrite Hlog. apply elem_of_app. left.
    apply (extract_loop_warning selectors c post e' pre Hex 0).
  - rewrite Hret, successes_app.
    by rewrite (successes_cons_Raise _ _ _ _ Hex).
  - intros soup0 selectors0 e0.
    destruct (s ← getitem selectors0 "container"; select soup0 s)
      as [cs|e1] eqn:Hq.
    + destruct (parse_products_Ok self soup0 selectors0 cs Hq)
        as (-> & _ & _).
      split; discriminate.
    + rewrite (parse_products_Raise self soup0 selectors0 e1 Hq). simpl.
      split; intros [= ->]; done.
Qed.

(** C10, as the code has it.  Besides logging, [parse_products] stores
    the list it returns in the [products] field of the instance, where
    [get_products] reads it; [url], [timeout] and [session] keep their
    values, and a call that raises leaves the instance as it was. *)
Theorem C10_parse_products_frame (self : WebScraper) (soup : node)
    (selectors : dict) :
  url (instance (parse self soup selectors)) = url self
  /\ timeout (instance (parse self soup selectors)) = timeout self
  /\ session (instance (parse self soup selectors)) = session self
  /\ match returned (parse self soup selectors) with
     | Ok records =>
         get_products (instance (parse self soup selectors)) = records
     | Raise _ => instance (parse self soup selectors) = self
     end.
Proof.
  destruct (s ← getitem selectors "container"; select soup s)
    as [cs|e] eqn:Hq.
  - destruct (parse_products_Ok self soup selectors cs Hq)
      as (-> & -> & _).
    done.
  - by rewrite (parse_products_Raise self soup selectors e Hq).
Qed.

End ExtractorFacts.

(** ** Export *)

Lemma export_written (now : pystr) (fs : files) (products : list dict)
    (filename : option pystr) (lines : list pystr) :
  export_lines products = Ok lines ->
  export_returned (export now fs products filename)
    = Ok (export_filename now filename)
  /\ export_files (export now fs products filename)
       !! export_filename now filename = Some lines
  /\ forall other, other <> export_filename now filename ->
       export_files (export now fs products filename) !! other = fs !! other.
Proof.
  intros Hlines. unfold export. rewrite Hlines. simpl. split_and!.
  - done.
  - apply lookup_insert_eq.
  - intros other Hother. by apply lookup_insert_ne.
Qed.

Lemma has_column_records (records : list dict) (col : string) :
  has_column (DataFrame_of_records records) col = true <->
  exists r, r ∈ records /\ col ∈ dom r.
Proof.
  unfold has_column, DataFrame_of_records. simpl.
  rewrite bool_decide_eq_true, elem_of_remove_dups, list_elem_of_bind.
  split.
  - intros (r & [[k v] [-> Hkv]]%list_elem_of_fmap & Hr). exists r.
    split; [done|]. apply elem_of_dom. exists v.
    by apply elem_of_map_to_list.
  - intros (r & Hr & [v Hv]%elem_of_dom). exists r. split; [|done].
    apply list_elem_of_fmap. exists (col, v). split; [done|].
    by apply elem_of_map_to_list.
Qed.

Lemma dict_get_filter (labels : list string) (r : dict) (col : string) :
  col ∈ labels ->
  dict_get (filter (fun kv : string * pystr => kv.1 ∈ labels) r) col []
  = dict_get r col [].
Proof.
  intros Hcol. unfold dict_get. rewrite map_lookup_filter.
  destruct (r !! col) as [v|]; simpl; [|done].
  by rewrite option_guard_True.
Qed.

(** Records that all have the three keys are written under the header
    [name,price,rating], one row each, the fields in this order. *)
Lemma export_fixed_columns (records : list dict) :
  records <> [] ->
  Forall (fun r => dom r = record_keys) records ->
  export_lines records
  = Ok (lit "name,price,rating"
        :: ((fun r : dict =>
               csv_writerow [dict_get r "name" []; dict_get r "price" [];
                             dict_get r "rating" []]) <$> records)).
Proof.
  intros Hne Hall.
  assert (forall col, col ∈ record_keys ->
            has_column (DataFrame_of_records records) col = true) as Hcol.
  { intros col Hin. apply has_column_records.
    destruct records as [|r rs]; [done|]. exists r. split; [by left|].
    by apply Forall_cons in Hall as [-> _]. }
  unfold export_lines. simpl List.filter.
  rewrite !Hcol by (unfold record_keys; set_solver).
  unfold df_getitem. simpl List.find.
  rewrite !Hcol by (unfold record_keys; set_solver). simpl.
  unfold to_csv. simpl columns. simpl data. f_equal. f_equal.
  rewrite <- list_fmap_compose. apply list_fmap_ext. intros _ r _. simpl.
  rewrite !dict_get_filter by set_solver. done.
Qed.

(** C7, as the code has it.  Exporting no record succeeds and writes a
    file of one line, the header, which is empty: a column is written
    only when some record has it.  No data row follows. *)
Theorem C7_export_empty (now : pystr) (fs : files) (path : pystr) :
  str_truthy path = true ->
  export_returned (export now fs [] (Some path)) = Ok path
  /\ export_files (export now fs [] (Some path)) !! path = Some [[]].
Proof.
  intros Hpath.
  destruct (export_written now fs [] (Some path) [[]]) as (Hret & Hfile & _);
    [by vm_compute|].
  assert (export_filename now (Some path) = path) as Hname
    by (unfold export_filename; by rewrite Hpath).
  rewrite Hname in Hret, Hfile. by split.
Qed.

(** C8. Exporting the record of "A Light in the Attic" to [out.csv]
    writes two lines: the header [name,price,rating] and the row
    [A Light in the Attic,51.77,Three]. *)
Theorem C8_export_single_record (now : pystr) (fs : files) :
  export_returned (export now fs [attic] (Some (lit "out.csv")))
    = Ok (lit "out.csv")
  /\ export_files (export now fs [attic] (Some (lit "out.csv")))
       !! lit "out.csv"
     = Some [lit "name,price,rating";
             lit "A Light in the Attic,51.77,Three"].
Proof.
  destruct (export_written now fs [attic] (Some (lit "out.csv"))
              [lit "name,price,rating";
               lit "A Light in the Attic,51.77,Three"])
    as (Hret & Hfile & _); [by vm_compute|].
  assert (export_filename now (Some (lit "out.csv")) = lit "out.csv")
    as Hname by reflexivity.
  rewrite Hname in Hret, Hfile. by split.
Qed.

(** * The statements on concrete inputs *)

Lemma C2_clean_price_rule_witness :
  (forall c, c < 256 -> unicode14_decimal c = (48 <=? c) && (c <=? 57))
  /\ (forall c, unicode14_decimal c = true -> py_isspace c = false)
  /\ (forall s, _clean_price unicode14_decimal s
                = normalize_price_spec unicode14_decimal s)
  /\ (forall s,
        _clean_price unicode14_decimal s =
          match List.filter
                  (fun c => unicode14_decimal c || (c =? 46) || (c =? 44)) s
          with
          | [] => lit "N/A"
          | c :: rest => c :: rest
          end)
  /\ _clean_price unicode14_decimal ([163] ++ lit "51.77") = lit "51.77"
  /\ _clean_price unicode14_decimal (lit "$1,234.56") = lit "1,234.56"
  /\ _clean_price unicode14_decimal (lit "Free") = lit "N/A".
Proof.
  split; [exact unicode14_latin1|].
  split; [exact unicode14_not_space|].
  exact (C2_clean_price_rule unicode14_decimal unicode14_latin1
           unicode14_not_space).
Defined.

Lemma C3_clean_price_idempotent_witness :
  (forall c, c < 256 -> unicode14_decimal c = (48 <=? c) && (c <=? 57))
  /\ (forall c, unicode14_decimal c = true -> py_isspace c = false)
  /\ _clean_price unicode14_decimal
       (_clean_price unicode14_decimal (lit "USD 1,234.56 each"))
     = _clean_price unicode14_decimal (lit "USD 1,234.56 each").
Proof.
  split; [exact unicode14_latin1|].
  split; [exact unicode14_not_space|].
  exact (C3_clean_price_idempotent unicode14_decimal unicode14_latin1
           unicode14_not_space (lit "USD 1,234.56 each")).
Defined.

Lemma C1_record_shape_witness :
  book_selectors !! "container"%string = Some (lit "article")
  /\ html_select listing (lit "article") = Ok [attic_book; untitled_book]
  /\ exists records,
       returned (parse_products unicode14_decimal html_select
                   html_get_text_strip books_scraper listing book_selectors)
         = Ok records
       /\ Forall (fun record => dom record = record_keys) records
       /\ (forall container record,
             container ∈ [attic_book; untitled_book] ->
             _extract_product unicode14_decimal html_select
               html_get_text_strip container book_selectors = Ok record ->
             record ∈ records
             /\ dom record = record_keys
             /\ forall field field_selector,
                  field ∈ ["name"; "price"; "rating"]%string ->
                  book_selectors !! field = Some field_selector ->
                  html_select container field_selector = Ok [] ->
                  record !! field = Some (lit "N/A"))
       /\ (forall container,
             container ∈ [attic_book; untitled_book] ->
             (forall field, field ∈ ["name"; "price"; "rating"]%string ->
                exists field_selector found,
                  book_selectors !! field = Some field_selector
                  /\ html_select container field_selector = Ok found) ->
             exists record,
               _extract_product unicode14_decimal html_select
                 html_get_text_strip container book_selectors = Ok record).
Proof.
  split; [by vm_compute|]. split; [by vm_compute|].
  apply (C1_record_shape unicode14_decimal html html_select
           html_get_text_strip books_scraper listing book_selectors
           (lit "article") [attic_book; untitled_book]);
    by vm_compute.
Defined.

Lemma C4_no_container_empty_witness :
  book_selectors !! "container"%string = Some (lit "article")
  /\ html_select empty_page (lit "article") = Ok []
  /\ returned (parse_products unicode14_decimal html_select
                 html_get_text_strip books_scraper empty_page book_selectors)
     = Ok [].
Proof.
  split; [by vm_compute|]. split; [by vm_compute|].
  apply (C4_no_container_empty unicode14_decimal html html_select
           html_get_text_strip books_scraper empty_page book_selectors
           (lit "article"));
    by vm_compute.
Defined.

Lemma C9_document_order_witness :
  book_selectors !! "container"%string = Some (lit "article")
  /\ html_select listing (lit "article") = Ok [attic_book; untitled_book]
  /\ exists records,
       returned (parse_products unicode14_decimal html_select
                   html_get_text_strip books_scraper listing book_selectors)
         = Ok records
       /\ records = successes unicode14_decimal html_select
                      html_get_text_strip book_selectors
                      [attic_book; untitled_book]
       /\ (exists kept,
             sublist kept [attic_book; untitled_book]
             /\ Forall2
                  (fun c r =>
                     _extract_product unicode14_decimal html_select
                       html_get_text_strip c book_selectors = Ok r)
                  kept records)
       /\ (forall all,
             Forall2
               (fun c r =>
                  _extract_product unicode14_decimal html_select
                    html_get_text_strip c book_selectors = Ok r)
               [attic_book; untitled_book] all ->
             records = all).
Proof.
  split; [by vm_compute|]. split; [by vm_compute|].
  apply (C9_document_order unicode14_decimal html html_select
           html_get_text_strip books_scraper listing book_selectors
           (lit "article") [attic_book; untitled_book]);
    by vm_compute.
Defined.

Lemma C5_failing_container_skipped_witness :
  book_selectors !! "container"%string = Some (lit "article")
  /\ brittle_select mixed_listing (lit "article")
     = Ok ([attic_book] ++ hollow_book :: [sharp_book])
  /\ brittle_select mixed_listing_cleared (lit "article")
     = Ok ([attic_book] ++ [sharp_book])
  /\ _extract_product unicode14_decimal brittle_select html_get_text_strip
       hollow_book book_selectors = Raise (SelectorSyntaxError (lit "h3"))
  /\ (successes unicode14_decimal brittle_select html_get_text_strip
        book_selectors [attic_book]
      ++ successes unicode14_decimal brittle_select html_get_text_strip
           book_selectors [sharp_book]
      = [attic; sharp])
  /\ returned (parse_products unicode14_decimal brittle_select
                 html_get_text_strip books_scraper mixed_listing
                 book_selectors)
     = Ok (successes unicode14_decimal brittle_select html_get_text_strip
             book_selectors [attic_book]
           ++ successes unicode14_decimal brittle_select html_get_text_strip
                book_selectors [sharp_book])
  /\ returned (parse_products unicode14_decimal brittle_select
                 html_get_text_strip books_scraper mixed_listing
                 book_selectors)
     = returned (parse_products unicode14_decimal brittle_select
                   html_get_text_strip books_scraper mixed_listing_cleared
                   book_selectors)
  /\ (WARNING,
      ErrorExtracting (length [attic_book] + 1)
        (SelectorSyntaxError (lit "h3")))
       ∈ logged (parse_products unicode14_decimal brittle_select
                   html_get_text_strip books_scraper mixed_listing
                   book_selectors).
Proof.
  split; [vm_compute; reflexivity|]. split; [vm_compute; reflexivity|].
  split; [vm_compute; reflexivity|]. split; [vm_compute; reflexivity|].
  split; [vm_compute; reflexivity|].
  apply (C5_failing_container_skipped unicode14_decimal html brittle_select
           html_get_text_strip books_scraper mixed_listing
           mixed_listing_cleared book_selectors (lit "article") [attic_book]
           [sharp_book] hollow_book (SelectorSyntaxError (lit "h3")));
    vm_compute; reflexivity.
Defined.

(** C6 as the specification states it fails: with a [name] selector that
    the engine rejects, the page with one product yields no record at
    all, where the claim promises a record with ["N/A"] as its name. *)
Lemma C6_counterexample :
  html_select short_listing (lit "article") = Ok [attic_book]
  /\ html_select attic_book (lit "h3[")
     = Raise (SelectorSyntaxError (lit "h3["))
  /\ returned (parse_products unicode14_decimal html_select
                 html_get_text_strip books_scraper short_listing
                 selectors_bad_name) = Ok []
  /\ ~ (exists records record,
          returned (parse_products unicode14_decimal html_select
                      html_get_text_strip books_scraper short_listing
                      selectors_bad_name) = Ok records
          /\ record ∈ records
          /\ record !! "name"%string = Some (lit "N/A")).
Proof.
  split_and!; [by vm_compute..|].
  intros (records & record & Hret & Hin & _).
  vm_compute in Hret. injection Hret as <-. by apply elem_of_nil in Hin.
Qed.

Lemma C6_field_selector_error_skips_witness :
  selectors_bad_name !! "container"%string = Some (lit "article")
  /\ html_select listing (lit "article")
     = Ok ([] ++ attic_book :: [untitled_book])
  /\ "name"%string ∈ ["name"; "price"; "rating"]%string
  /\ selectors_bad_name !! "name"%string = Some (lit "h3[")
  /\ html_select attic_book (lit "h3[")
     = Raise (SelectorSyntaxError (lit "h3["))
  /\ (exists e',
        _extract_product unicode14_decimal html_select html_get_text_strip
          attic_book selectors_bad_name = Raise e'
        /\ (WARNING, ErrorExtracting (length (@nil html) + 1) e')
             ∈ logged (parse_products unicode14_decimal html_select
                         html_get_text_strip books_scraper listing
                         selectors_bad_name))
  /\ returned (parse_products unicode14_decimal html_select
                 html_get_text_strip books_scraper listing
                 selectors_bad_name)
     = Ok (successes unicode14_decimal html_select html_get_text_strip
             selectors_bad_name []
           ++ successes unicode14_decimal html_select html_get_text_strip
                selectors_bad_name [untitled_book])
  /\ (forall soup0 selectors0 e0,
        returned (parse_products unicode14_decimal html_select
                    html_get_text_strip books_scraper soup0 selectors0)
          = Raise e0 <->
        (s ← getitem selectors0 "container"; html_select soup0 s)
          = Raise e0).
Proof.
  split; [by vm_compute|]. split; [by vm_compute|].
  split; [by left|]. split; [by vm_compute|]. split; [by vm_compute|].
  apply (C6_field_selector_error_skips unicode14_decimal html html_select
           html_get_text_strip books_scraper listing selectors_bad_name
           (lit "article") [] [untitled_book] attic_book "name"%string
           (lit "h3[") (SelectorSyntaxError (lit "h3[")));
    [by vm_compute|by vm_compute|by left|by vm_compute|by vm_compute].
Defined.

(** C7 as the specification states it fails: the file written for no
    record holds an empty line, not the line [name,price,rating]. *)
Lemma C7_counterexample :
  export_files (export [] ∅ [] (Some (lit "out.csv"))) !! lit "out.csv"
    = Some [[]]
  /\ export_files (export [] ∅ [] (Some (lit "out.csv"))) !! lit "out.csv"
     <> Some [lit "name,price,rating"].
Proof.
  assert (export_files (export [] ∅ [] (Some (lit "out.csv")))
            !! lit "out.csv" = Some [[]]) as H by (by vm_compute).
  split; [done|]. rewrite H. by vm_compute.
Qed.

Lemma C7_export_empty_witness :
  str_truthy (lit "out.csv") = true
  /\ export_returned (export [] ∅ [] (Some (lit "out.csv")))
     = Ok (lit "out.csv")
  /\ export_files (export [] ∅ [] (Some (lit "out.csv"))) !! lit "out.csv"
     = Some [[]].
Proof.
  split; [by vm_compute|].
  apply (C7_export_empty [] ∅ (lit "out.csv")). by vm_compute.
Defined.

(** C10 as the specification states it fails: a call on a fresh scraper
    changes what [get_products] returns. *)
Lemma C10_counterexample :
  get_products books_scraper = []
  /\ get_products
       (instance (parse_products unicode14_decimal html_select
                    html_get_text_strip books_scraper short_listing
                    book_selectors)) = [attic]
  /\ instance (parse_products unicode14_decimal html_select
                 html_get_text_strip books_scraper short_listing
                 book_selectors) <> books_scraper.
Proof.
  split; [reflexivity|]. split; [vm_compute; reflexivity|].
  intros H. apply (f_equal (fun self => length (products self))) in H.
  vm_compute in H. discriminate H.
Qed.

(** * Further properties of the extractor *)

Section PriceMore.

Variable unicode_decimal : N -> bool.

Hypothesis decimal_latin1 :
  forall c, c < 256 -> unicode_decimal c = (48 <=? c) && (c <=? 57).

Hypothesis decimal_not_space :
  forall c, unicode_decimal c = true -> py_isspace c = false.

Lemma clean_price_price_char (s : pystr) :
  _clean_price unicode_decimal s =
    match List.filter (price_char unicode_decimal) s with
    | [] => lit "N/A"
    | c :: rest => c :: rest
    end.
Proof. exact (clean_price_filter unicode_decimal decimal_not_space s). Qed.

Lemma sentinel_not_price_char :
  List.filter (price_char unicode_decimal) (lit "N/A") = [].
Proof.
  unfold price_char.
  rewrite (filter_kept_latin1 unicode_decimal decimal_latin1); by vm_compute.
Qed.

(** The sentinel comes out exactly when the text holds no decimal digit,
    no [.] and no [,]. *)
Theorem clean_price_sentinel_iff (s : pystr) :
  _clean_price unicode_decimal s = lit "N/A" <->
  Forall (fun c => price_char unicode_decimal c = false) s.
Proof.
  rewrite clean_price_price_char. split.
  - intros H. apply Forall_forall. intros c Hc%list_elem_of_In.
    destruct (price_char unicode_decimal c) eqn:Hpc; [|done].
    assert (In c (List.filter (price_char unicode_decimal) s)) as Hin
      by (by apply filter_In).
    destruct (List.filter (price_char unicode_decimal) s) as [|c' rest]
      eqn:Hf; [done|].
    rewrite H in Hin.
    assert (In c (List.filter (price_char unicode_decimal) (lit "N/A")))
      as Hbad by (by apply filter_In).
    by rewrite sentinel_not_price_char in Hbad.
  - intros Hall.
    assert (List.filter (price_char unicode_decimal) s = []) as ->; [|done].
    induction Hall as [|c s Hc _ IH]; simpl; [done|]. by rewrite Hc.
Qed.

Lemma filter_all (P : N -> bool) (s : pystr) :
  Forall (fun c => P c = true) s -> List.filter P s = s.
Proof. induction 1 as [|c s Hc _ IH]; simpl; [done|]. by rewrite Hc, IH. Qed.

(** The texts that normalisation leaves as they are: the sentinel, and
    the non-empty texts made of decimal digits, [.] and [,] only. *)
Theorem clean_price_fixed_points (s : pystr) :
  _clean_price unicode_decimal s = s <->
  s = lit "N/A"
  \/ (s <> [] /\ Forall (fun c => price_char unicode_decimal c = true) s).
Proof.
  rewrite clean_price_price_char. split.
  - intros H.
    destruct (List.filter (price_char unicode_decimal) s) as [|c rest] eqn:Hf.
    + by left.
    + right. split; [by rewrite <- H|].
      rewrite <- H, <- Hf. apply Forall_forall.
      intros x Hx%list_elem_of_In. by apply filter_In in Hx as [_ ?].
  - intros [-> | [Hne Hall]].
    + by rewrite sentinel_not_price_char.
    + rewrite (filter_all _ _ Hall). by destruct s.
Qed.

End PriceMore.

Section ExtractorMore.

Variable unicode_decimal : N -> bool.
Variable node : Type.
Variable select : node -> pystr -> result (list node).
Variable get_text_strip : node -> pystr.

Local Abbreviation extract :=
  (_extract_product unicode_decimal select get_text_strip).
Local Abbreviation loop :=
  (extract_loop unicode_decimal select get_text_strip).
Local Abbreviation parse :=
  (parse_products unicode_decimal select get_text_strip).
Local Abbreviation records_of :=
  (successes unicode_decimal select get_text_strip).
Local Abbreviation warnings_of :=
  (skip_warnings unicode_decimal select get_text_strip).

Lemma successes_length (selectors : dict) (containers : list node) :
  (length (records_of selectors containers) <= length containers)%nat.
Proof.
  destruct (successes_sublist unicode_decimal node select get_text_strip
              selectors containers) as (kept & Hsub%sublist_length & Hall).
  apply Forall2_length in Hall. lia.
Qed.

(** [parse_products] returns at most one record per matched container,
    and as many as there are containers when no extraction raises. *)
Theorem parse_products_length (self : WebScraper) (soup : node)
    (selectors : dict) (selector : pystr) (containers : list node) :
  selectors !! "container"%string = Some selector ->
  select soup selector = Ok containers ->
  exists records,
    returned (parse self soup selectors) = Ok records
    /\ (length records <= length containers)%nat
    /\ (Forall (fun c => exists r, extract c selectors = Ok r) containers ->
        length records = length containers).
Proof.
  intros Hsel Hcs.
  destruct (parse_products_Ok unicode_decimal node select get_text_strip
              self soup selectors containers
              (container_query_Ok node select _ _ _ _ Hsel Hcs))
    as (Hret & _ & _).
  exists (records_of selectors containers). split_and!; [done| |].
  - apply successes_length.
  - clear Hcs Hret. induction 1 as [|c cs [r Hr] _ IH]; [done|].
    rewrite (successes_cons_Ok _ _ _ _ _ _ _ _ Hr). simpl. by rewrite IH.
Qed.

(** Without the key [container] the call raises [KeyError], logs one
    error and leaves the instance alone; no container is looked at. *)
Theorem parse_products_missing_container (self : WebScraper) (soup : node)
    (selectors : dict) :
  selectors !! "container"%string = None ->
  parse self soup selectors
  = {| returned := Raise (KeyError "container");
       instance := self;
       logged := [(ERROR, ErrorParsing (KeyError "container"))] |}.
Proof.
  intros Hnone. apply parse_products_Raise. unfold getitem. by rewrite Hnone.
Qed.

Lemma extract_product_missing_field (container : node) (selectors : dict)
    (field : string) :
  field ∈ ["name"; "price"; "rating"]%string ->
  selectors !! field = None ->
  exists e, extract container selectors = Raise e.
Proof.
  intros Hfield Hnone.
  destruct (extract container selectors) as [product|e] eqn:Hex;
    [|by exists e].
  apply extract_product_Ok in Hex
    as (ns & ps & rs & ne & pe & re & Hn & Hp & Hr & _).
  repeat (apply elem_of_cons in Hfield as [-> | Hfield]);
    [| | |by apply elem_of_nil in Hfield]; congruence.
Qed.

Lemma successes_all_raise (selectors : dict) (containers : list node) :
  (forall c, exists e, extract c selectors = Raise e) ->
  records_of selectors containers = [].
Proof.
  intros Hall. induction containers as [|c cs IH]; [done|].
  destruct (Hall c) as [e He].
  by rewrite (successes_cons_Raise _ _ _ _ _ _ _ _ He).
Qed.

(** Without one of the keys [name], [price], [rating] every container
    is skipped: the call returns the empty list and logs a warning for
    each container, under its number. *)
Theorem parse_products_missing_field (self : WebScraper) (soup : node)
    (selectors : dict) (selector : pystr) (containers : list node)
    (field : string) :
  selectors !! "container"%string = Some selector ->
  select soup selector = Ok containers ->
  field ∈ ["name"; "price"; "rating"]%string ->
  selectors !! field = None ->
  returned (parse self soup selectors) = Ok []
  /\ forall i c, containers !! i = Some c ->
       exists e, (WARNING, ErrorExtracting (i + 1) e)
                   ∈ logged (parse self soup selectors).
Proof.
  intros Hsel Hcs Hfield Hnone.
  destruct (parse_products_Ok unicode_decimal node select get_text_strip
              self soup selectors containers
              (container_query_Ok node select _ _ _ _ Hsel Hcs))
    as (Hret & _ & Hlog).
  split.
  - rewrite Hret. f_equal. apply successes_all_raise.
    intros c. by apply (extract_product_missing_field c selectors field).
  - intros i c Hi.
    destruct (extract_product_missing_field c selectors field Hfield Hnone)
      as [e He].
    exists e. rewrite Hlog. apply elem_of_app. left.
    pose proof (extract_loop_warning unicode_decimal node select
                  get_text_strip selectors c (drop (S i) containers) e
                  (take i containers) He 0 []
                  [(INFO, Found (length containers))]) as Hw.
    rewrite (take_drop_middle containers i c Hi) in Hw.
    rewrite length_take_le in Hw; [done|].
    apply lookup_lt_Some in Hi. lia.
Qed.

Lemma emitted_app (lg1 lg2 : log) :
  emitted (lg1 ++ lg2) = emitted lg1 ++ emitted lg2.
Proof. apply List.filter_app. Qed.

Lemma extract_loop_emitted (selectors : dict) (cs : list node) :
  forall (idx : nat) (acc : list dict) (lg : log),
    emitted (loop selectors idx cs acc lg).2
    = emitted lg ++ warnings_of selectors idx cs.
Proof.
  induction cs as [|c cs IH]; intros idx acc lg;
    cbn [extract_loop skip_warnings].
  - simpl. by rewrite app_nil_r.
  - destruct (extract c selectors) as [product|e] eqn:Hex.
    + rewrite (extract_product_truthy _ _ _ _ _ _ _ Hex), IH, emitted_app.
      simpl. by rewrite app_nil_r.
    + rewrite IH, emitted_app. simpl. by rewrite <- app_assoc.
Qed.

Lemma skip_warnings_length (selectors : dict) (cs : list node) :
  forall idx : nat,
    (length (warnings_of selectors idx cs)
     + length (records_of selectors cs) = length cs)%nat.
Proof.
  induction cs as [|c cs IH]; intros idx; cbn [skip_warnings]; [done|].
  destruct (extract c selectors) as [product|e] eqn:Hex.
  - rewrite (successes_cons_Ok _ _ _ _ _ _ _ _ Hex). simpl.
    specialize (IH (S idx)). lia.
  - rewrite (successes_cons_Raise _ _ _ _ _ _ _ _ Hex). simpl.
    specialize (IH (S idx)). lia.
Qed.

(** The log that reaches the handlers when a call returns: the number
    of containers found, one warning for each skipped container, in
    document order and under the number of the container, and the
    number of products.  The debug record of a product is below the
    level of the module and does not appear. *)
Theorem parse_products_emitted_log (self : WebScraper) (soup : node)
    (selectors : dict) (selector : pystr) (containers : list node) :
  selectors !! "container"%string = Some selector ->
  select soup selector = Ok containers ->
  emitted (logged (parse self soup selectors))
  = [(INFO, Found (length containers))]
    ++ warnings_of selectors 0 containers
    ++ [(INFO, SuccessfullyExtracted
                 (length (records_of selectors containers)))]
  /\ (length (emitted (logged (parse self soup selectors)))
      + length (records_of selectors containers)
      = length containers + 2)%nat.
Proof.
  intros Hsel Hcs.
  destruct (parse_products_Ok unicode_decimal node select get_text_strip
              self soup selectors containers
              (container_query_Ok node select _ _ _ _ Hsel Hcs))
    as (_ & _ & Hlog).
  rewrite Hlog, emitted_app, extract_loop_emitted. simpl emitted.
  split.
  - by rewrite <- app_assoc.
  - rewrite !length_app. simpl.
    pose proof (skip_warnings_length selectors containers 0). lia.
Qed.

(** First match: each field is read from the first node its selector
    finds below the container, whatever else matches. *)
Theorem extract_product_first_match (container : node) (selectors : dict)
    (ns ps rs : pystr) (n p r : node) (nrest prest rrest : list node) :
  selectors !! "name"%string = Some ns ->
  selectors !! "price"%string = Some ps ->
  selectors !! "rating"%string = Some rs ->
  select container ns = Ok (n :: nrest) ->
  select container ps = Ok (p :: prest) ->
  select container rs = Ok (r :: rrest) ->
  exists record,
    extract container selectors = Ok record
    /\ record !! "name"%string = Some (get_text_strip n)
    /\ record !! "price"%string
       = Some (_clean_price unicode_decimal (get_text_strip p))
    /\ record !! "rating"%string = Some (get_text_strip r).
Proof.
  intros Hn Hp Hr Hnm Hpm Hrm.
  eexists. split.
  - by apply (extract_product_returns unicode_decimal node select
                get_text_strip container selectors ns ps rs
                (n :: nrest) (p :: prest) (r :: rrest)).
  - simpl. split_and!.
    + by rewrite lookup_insert_ne, lookup_insert_ne, lookup_insert_eq.
    + by rewrite lookup_insert_ne, lookup_insert_eq.
    + by rewrite lookup_insert_eq.
Qed.

(** A call does not depend on what earlier calls left in the instance:
    after a call on one page, a call on another page returns, logs and
    stores what it would on the fresh instance. *)
Theorem parse_products_no_accumulation (self : WebScraper)
    (soup1 soup2 : node) (selectors1 selectors2 : dict) :
  let after := instance (parse self soup1 selectors1) in
  returned (parse after soup2 selectors2)
    = returned (parse self soup2 selectors2)
  /\ logged (parse after soup2 selectors2)
     = logged (parse self soup2 selectors2)
  /\ (forall records,
        returned (parse self soup2 selectors2) = Ok records ->
        instance (parse after soup2 selectors2)
        = instance (parse self soup2 selectors2)
        /\ get_products (instance (parse after soup2 selectors2)) = records).
Proof.
  intros after.
  assert (url after = url self /\ timeout after = timeout self
          /\ session after = session self) as (Hu & Ht & Hs).
  { unfold after.
    destruct (s ← getitem selectors1 "container"; select soup1 s)
      as [cs|e] eqn:Hq.
    - by destruct (parse_products_Ok unicode_decimal node select
                     get_text_strip self soup1 selectors1 cs Hq)
        as (_ & -> & _).
    - by rewrite (parse_products_Raise unicode_decimal node select
                    get_text_strip self soup1 selectors1 e Hq). }
  destruct (s ← getitem selectors2 "container"; select soup2 s)
    as [cs|e] eqn:Hq.
  - destruct (parse_products_Ok unicode_decimal node select get_text_strip
                self soup2 selectors2 cs Hq) as (Hr1 & Hi1 & Hl1).
    destruct (parse_products_Ok unicode_decimal node select get_text_strip
                after soup2 selectors2 cs Hq) as (Hr2 & Hi2 & Hl2).
    rewrite Hr1, Hr2, Hl1, Hl2, Hi1, Hi2, Hu, Ht, Hs.
    split_and!; [done|done|]. by intros records [= <-].
  - rewrite (parse_products_Raise unicode_decimal node select get_text_strip
               self soup2 selectors2 e Hq).
    rewrite (parse_products_Raise unicode_decimal node select get_text_strip
               after soup2 selectors2 e Hq).
    split_and!; [done|done|]. intros records. simpl. discriminate.
Qed.

End ExtractorMore.

Section PriceInRecords.

Variable unicode_decimal : N -> bool.
Variable node : Type.
Variable select : node -> pystr -> result (list node).
Variable get_text_strip : node -> pystr.

Hypothesis decimal_not_space :
  forall c, unicode_decimal c = true -> py_isspace c = false.

(** Whatever the page holds, the price of a returned record is the
    sentinel or a non-empty text of decimal digits, [.] and [,]. *)
Theorem parse_products_price_shape (self : WebScraper) (soup : node)
    (selectors : dict) (records : list dict) (record : dict) :
  returned (parse_products unicode_decimal select get_text_strip self soup
              selectors) = Ok records ->
  record ∈ records ->
  exists price,
    record !! "price"%string = Some price
    /\ (price = lit "N/A"
        \/ (price <> []
            /\ Forall (fun c => price_char unicode_decimal c = true) price)).
Proof.
  intros Hret Hin.
  destruct (s ← getitem selectors "container"; select soup s)
    as [cs|e] eqn:Hq.
  - destruct (parse_products_Ok unicode_decimal node select get_text_strip
                self soup selectors cs Hq) as (Hr & _ & _).
    rewrite Hr in Hret. injection Hret as <-.
    apply successes_origin in Hin as (c & _ & Hex).
    apply extract_product_Ok in Hex
      as (ns & ps & rs & ne & pe & re & _ & _ & _ & _ & _ & _ & ->).
    eexists. split; [by rewrite lookup_insert_ne, lookup_insert_eq|].
    destruct pe as [e|]; simpl; [|by left].
    rewrite (clean_price_filter unicode_decimal decimal_not_space).
    destruct (List.filter _ (get_text_strip e)) as [|c0 rest] eqn:Hf;
      [by left|].
    right. split; [done|]. rewrite <- Hf. apply Forall_forall.
    intros x Hx%list_elem_of_In. by apply filter_In in Hx as [_ ?].
  - rewrite (parse_products_Raise unicode_decimal node select get_text_strip
               self soup selectors e Hq) in Hret.
    discriminate.
Qed.

End PriceInRecords.

(** * Further properties of the exporter *)

Lemma has_column_present (products : list dict) (col : string) :
  has_column (DataFrame_of_records products) col
  = existsb (fun r : dict => bool_decide (is_Some (r !! col))) products.
Proof.
  apply eq_true_iff_eq. rewrite has_column_records, existsb_exists.
  split.
  - intros (r & Hr & Hcol). exists r. split; [by apply list_elem_of_In|].
    apply bool_decide_eq_true. by apply elem_of_dom.
  - intros (r & Hr & Hcol). exists r. split; [by apply list_elem_of_In|].
    apply elem_of_dom. by apply bool_decide_eq_true in Hcol.
Qed.

Lemma find_after_filter {A : Type} (P : A -> bool) (l : list A) :
  List.find (fun x => negb (P x)) (List.filter P l) = None.
Proof.
  induction l as [|x l IH]; simpl; [done|].
  destruct (P x) eqn:HP; simpl; [|done]. by rewrite HP.
Qed.

Lemma export_lines_present (products : list dict) :
  export_lines products
  = Ok (csv_writerow (lit <$> present_columns products)
        :: ((fun r : dict =>
               csv_writerow
                 ((fun col => dict_get r col []) <$> present_columns products))
              <$> products)).
Proof.
  unfold export_lines.
  assert (List.filter (has_column (DataFrame_of_records products))
            ["name"; "price"; "rating"]%string
          = present_columns products) as Hcols.
  { unfold present_columns. apply filter_ext. intros col.
    apply has_column_present. }
  unfold df_getitem. rewrite find_after_filter, Hcols. simpl.
  unfold to_csv. simpl. do 2 f_equal.
  rewrite <- list_fmap_compose. apply list_fmap_ext. intros _ r _. simpl.
  f_equal. apply list_fmap_ext. intros i col Hcol.
  apply dict_get_filter. by apply list_elem_of_lookup_2 in Hcol.
Qed.

Lemma default_filename_inj (now1 now2 : pystr) :
  export_filename now1 None = export_filename now2 None -> now1 = now2.
Proof.
  unfold export_filename. intros H.
  apply app_inv_head in H. by apply app_inv_tail in H.
Qed.

Section ExportFacts.

Variable write_fails : files -> pystr -> list pystr -> option (pystr * files).

Local Abbreviation export_on := (export_io write_fails).

(** The rows of a list of records: the header of the columns there
    are, and a row per record. *)
#[warnings="-inconsistent-scopes"]
Local Abbreviation rows_of products := (
  csv_writerow (lit <$> present_columns products)
  :: ((fun r : dict =>
         csv_writerow
           ((fun col => dict_get r col []) <$> present_columns products))
        <$> products)).

Lemma export_io_cases (now : pystr) (fs : files) (products : list dict)
    (filename : option pystr) :
  export_on now fs products filename
  = match write_fails fs (export_filename now filename) (rows_of products)
    with
    | None =>
        {| io_returned := Returned (export_filename now filename);
           io_files :=
             <[ export_filename now filename := rows_of products ]> fs;
           io_logged :=
             [(INFO, Logged (Exported (export_filename now filename)));
              (INFO, Logged (TotalExported (length products)))] |}
    | Some (reason, fs') =>
        {| io_returned := Failed (WriteFailed reason);
           io_files := fs';
           io_logged := [(ERROR, ExportFailed (WriteFailed reason))] |}
    end.
Proof. unfold export_io. by rewrite export_lines_present. Qed.

Lemma export_io_returned (now : pystr) (fs : files) (products : list dict)
    (filename : option pystr) (name : pystr) :
  io_returned (export_on now fs products filename) = Returned name ->
  name = export_filename now filename
  /\ write_fails fs name (rows_of products) = None
  /\ io_files (export_on now fs products filename)
     = <[ name := rows_of products ]> fs.
Proof.
  rewrite export_io_cases.
  destruct (write_fails fs _ _) as [[reason fs']|] eqn:Hw; [done|].
  simpl. intros [= <-]. done.
Qed.

(** When [export] returns, the file it names holds, as columns, those
    of [name], [price], [rating] that some record has, in this order,
    and one row per record; a key outside the three is dropped and a
    value a record lacks is written as an empty field. *)
Theorem export_columns (now : pystr) (fs : files) (products : list dict)
    (filename : option pystr) (name : pystr) :
  io_returned (export_on now fs products filename) = Returned name ->
  name = export_filename now filename
  /\ io_files (export_on now fs products filename) !! name
     = Some (csv_writerow (lit <$> present_columns products)
             :: ((fun r : dict =>
                    csv_writerow
                      ((fun col => dict_get r col [])
                         <$> present_columns products))
                   <$> products)).
Proof.
  intros (Hname & _ & Hfiles)%export_io_returned.
  split; [done|]. rewrite Hfiles. apply lookup_insert_eq.
Qed.

(** [export] raises exactly when the write fails, whatever keys the
    records have: it then logs one error and raises the exception of
    the write.  Otherwise it returns the resolved file name, has written
    under it the header row and one row per record, leaves every other
    file alone and logs the name and the count. *)
Theorem export_raises_only_on_write (now : pystr) (fs : files)
    (products : list dict) (filename : option pystr) :
  exists rows,
    export_lines products = Ok rows
    /\ length rows = S (length products)
    /\ match write_fails fs (export_filename now filename) rows with
       | None =>
           export_on now fs products filename
           = {| io_returned := Returned (export_filename now filename);
                io_files := <[ export_filename now filename := rows ]> fs;
                io_logged :=
                  [(INFO, Logged (Exported (export_filename now filename)));
                   (INFO, Logged (TotalExported (length products)))] |}
       | Some (reason, fs') =>
           export_on now fs products filename
           = {| io_returned := Failed (WriteFailed reason);
                io_files := fs';
                io_logged := [(ERROR, ExportFailed (WriteFailed reason))] |}
       end.
Proof.
  exists (rows_of products). split_and!.
  - apply export_lines_present.
  - simpl. by rewrite length_fmap.
  - rewrite export_io_cases.
    by destruct (write_fails fs _ _) as [[reason fs']|].
Qed.

(** Without a file name, or with the empty one, [export] writes to
    [products_<time stamp>.csv].  Of two exports that return, under
    different time stamps each has its own file and the first file
    survives the second export; under the same time stamp the second
    replaces the rows of the first. *)
Theorem export_default_filename (now1 now2 : pystr) (fs : files)
    (products1 products2 : list dict) (name1 name2 : pystr) :
  let first := export_on now1 fs products1 None in
  let second := export_on now2 (io_files first) products2 None in
  io_returned first = Returned name1 ->
  io_returned second = Returned name2 ->
  exists rows1 rows2,
    export_lines products1 = Ok rows1
    /\ export_lines products2 = Ok rows2
    /\ name1 = lit "products_" ++ now1 ++ lit ".csv"
    /\ name2 = lit "products_" ++ now2 ++ lit ".csv"
    /\ export_on now1 fs products1 (Some []) = first
    /\ io_files first !! name1 = Some rows1
    /\ io_files second !! name2 = Some rows2
    /\ (now1 <> now2 ->
        name1 <> name2 /\ io_files second !! name1 = Some rows1)
    /\ (now1 = now2 -> io_files second = <[ name2 := rows2 ]> fs).
Proof.
  intros first second (Hn1 & _ & Hf1)%export_io_returned
    (Hn2 & _ & Hf2)%export_io_returned.
  fold first in Hf1. fold second in Hf2.
  exists (rows_of products1), (rows_of products2).
  split_and!.
  - apply export_lines_present.
  - apply export_lines_present.
  - done.
  - done.
  - done.
  - rewrite Hf1. apply lookup_insert_eq.
  - rewrite Hf2. apply lookup_insert_eq.
  - intros Hne.
    assert (name1 <> name2) as Hnames.
    { rewrite Hn1, Hn2. intros H. by apply Hne, default_filename_inj. }
    split; [done|]. rewrite Hf2, lookup_insert_ne by done.
    rewrite Hf1. apply lookup_insert_eq.
  - intros Heq. rewrite Hf2, Hf1.
    assert (name1 = name2) as -> by (rewrite Hn1, Hn2; by subst).
    apply insert_insert_eq.
Qed.

(** On a file system that takes every write, [export_io] is [export]. *)
Lemma export_io_writable (now : pystr) (fs : files) (products : list dict)
    (filename : option pystr) :
  io_files (export_io writable now fs products filename)
  = export_files (export now fs products filename)
  /\ forall name,
       io_returned (export_io writable now fs products filename)
         = Returned name <->
       export_returned (export now fs products filename) = Ok name.
Proof.
  unfold export_io, export, writable.
  rewrite export_lines_present. simpl. split; [done|].
  intros name. split; intros [= <-]; done.
Qed.

End ExportFacts.

(** * The workflow *)

Section WorkflowFacts.

Variable unicode_decimal : N -> bool.
Variable node : Type.
Variable select : node -> pystr -> result (list node).
Variable get_text_strip : node -> pystr.
Variable write_fails : files -> pystr -> list pystr -> option (pystr * files).
Variable http_get : pystr -> N -> dict -> pystr + node.

Local Abbreviation parse :=
  (parse_products unicode_decimal select get_text_strip).
Local Abbreviation records_of :=
  (successes unicode_decimal select get_text_strip).
Local Abbreviation export_on := (export_io write_fails).
Local Abbreviation scrape :=
  (scrape_website unicode_decimal select get_text_strip write_fails
     http_get).

(** The rows of a file of complete records. *)
Local Abbreviation record_rows records := (
  lit "name,price,rating"
  :: ((fun r : dict =>
         csv_writerow [dict_get r "name" []; dict_get r "price" [];
                       dict_get r "rating" []]) <$> records)).

Lemma successes_complete (selectors : dict) (containers : list node) :
  Forall (fun r => dom r = record_keys) (records_of selectors containers).
Proof.
  apply Forall_forall. intros record (c & _ & Hex)%successes_origin.
  by apply extract_product_dom in Hex.
Qed.

Lemma export_io_complete (now : pystr) (fs : files) (records : list dict)
    (filename : option pystr) :
  records <> [] ->
  Forall (fun r => dom r = record_keys) records ->
  export_on now fs records filename
  = match write_fails fs (export_filename now filename)
            (record_rows records) with
    | None =>
        {| io_returned := Returned (export_filename now filename);
           io_files :=
             <[ export_filename now filename := record_rows records ]> fs;
           io_logged :=
             [(INFO, Logged (Exported (export_filename now filename)));
              (INFO, Logged (TotalExported (length records)))] |}
    | Some (reason, fs') =>
        {| io_returned := Failed (WriteFailed reason);
           io_files := fs';
           io_logged := [(ERROR, ExportFailed (WriteFailed reason))] |}
    end.
Proof.
  intros Hne Hall. unfold export_io.
  by rewrite (export_fixed_columns records Hne Hall).
Qed.

(** What [parse_products] returns can be exported as it is: when the
    export of a non-empty result returns, the file holds the header
    [name,price,rating] and, record by record in the order of the
    containers, the row of the three values. *)
Theorem parse_then_export (self : WebScraper) (soup : node)
    (selectors : dict) (records : list dict) (now : pystr) (fs : files)
    (filename : option pystr) (name : pystr) :
  returned (parse self soup selectors) = Ok records ->
  records <> [] ->
  io_returned (export_on now fs records filename) = Returned name ->
  name = export_filename now filename
  /\ io_files (export_on now fs records filename) !! name
     = Some (lit "name,price,rating"
             :: ((fun r : dict =>
                    csv_writerow
                      [dict_get r "name" []; dict_get r "price" [];
                       dict_get r "rating" []]) <$> records)).
Proof.
  intros Hret Hne.
  assert (Forall (fun r => dom r = record_keys) records) as Hall.
  { destruct (s ← getitem selectors "container"; select soup s)
      as [cs|e] eqn:Hq.
    - destruct (parse_products_Ok unicode_decimal node select get_text_strip
                  self soup selectors cs Hq) as (Hr & _ & _).
      rewrite Hr in Hret. injection Hret as <-. apply successes_complete.
    - rewrite (parse_products_Raise unicode_decimal node select
                 get_text_strip self soup selectors e Hq) in Hret.
      discriminate. }
  rewrite (export_io_complete now fs records filename Hne Hall).
  destruct (write_fails fs _ _) as [[reason fs']|]; [done|].
  simpl. intros [= <-]. split; [done|]. apply lookup_insert_eq.
Qed.

Lemma fetch_page_init (url : pystr) :
  fetch_page http_get (WebScraper_init url 10)
  = match http_get url 10 (session (WebScraper_init url 10)) with
    | inr soup =>
        (Returned soup, [(INFO, FetchingURL url); (INFO, PageFetched)])
    | inl reason =>
        (Failed (RequestException reason),
         [(INFO, FetchingURL url); (ERROR, FailedToFetch reason)])
    end.
Proof. unfold fetch_page. simpl. by destruct (http_get _ _ _). Qed.

(** What [scrape_website] does to the files.  When it returns a name,
    exactly the file of that name has been written, with the header and
    at least one row.  When it returns [None], and when it raises
    because the page cannot be fetched or searched, the files are as
    they were.  When the write of the export fails, the files are what
    the failed write leaves. *)
Theorem scrape_website_files (now : pystr) (fs : files) (url : pystr)
    (selectors : dict) (output_file : option pystr) :
  match workflow_returned (scrape now fs url selectors output_file) with
  | Returned (Some filename) =>
      filename = export_filename now output_file
      /\ exists rows,
           workflow_files (scrape now fs url selectors output_file)
           = <[ filename := rows ]> fs
           /\ hd_error rows = Some (lit "name,price,rating")
           /\ (2 <= length rows)%nat
  | Returned None | Failed (RequestException _) | Failed (Raised _) =>
      workflow_files (scrape now fs url selectors output_file) = fs
  | Failed (WriteFailed reason) =>
      exists rows,
        write_fails fs (export_filename now output_file) rows
        = Some (reason,
                workflow_files (scrape now fs url selectors output_file))
  end.
Proof.
  unfold scrape_website. rewrite fetch_page_init.
  destruct (http_get url 10 _) as [reason|soup]; [done|].
  destruct (s ← getitem selectors "container"; select soup s)
    as [cs|e] eqn:Hq.
  - destruct (parse_products_Ok unicode_decimal node select get_text_strip
                (WebScraper_init url 10) soup selectors cs Hq)
      as (Hret & _ & _).
    rewrite Hret.
    destruct (records_of selectors cs) as [|r rs] eqn:Hrs; [done|].
    cbn [list_truthy].
    rewrite (export_io_complete now fs (r :: rs) output_file);
      [|done|rewrite <- Hrs; apply successes_complete].
    destruct (write_fails fs _ _) as [[reason fs']|] eqn:Hw.
    + simpl. by eexists.
    + simpl. split; [done|]. eexists. split; [done|]. split; [done|].
      simpl. lia.
  - by rewrite (parse_products_Raise unicode_decimal node select
                  get_text_strip (WebScraper_init url 10) soup selectors e
                  Hq).
Qed.

(** A page on which nothing is extracted (no container, or only skipped
    ones) is not exported: [scrape_website] returns [None], writes no
    file and ends its log with the warning. *)
Theorem scrape_website_no_products (now : pystr) (fs : files) (url : pystr)
    (selectors : dict) (output_file : option pystr) (soup : node)
    (selector : pystr) (containers : list node) :
  http_get url 10 (session (WebScraper_init url 10)) = inr soup ->
  selectors !! "container"%string = Some selector ->
  select soup selector = Ok containers ->
  records_of selectors containers = [] ->
  workflow_returned (scrape now fs url selectors output_file) = Returned None
  /\ workflow_files (scrape now fs url selectors output_file) = fs
  /\ last (workflow_logged (scrape now fs url selectors output_file))
     = Some (WARNING, NoProductsFound).
Proof.
  intros Hget Hsel Hcs Hnone.
  destruct (parse_products_Ok unicode_decimal node select get_text_strip
              (WebScraper_init url 10) soup selectors containers
              (container_query_Ok node select _ _ _ _ Hsel Hcs))
    as (Hret & _ & _).
  unfold scrape_website. rewrite fetch_page_init, Hget, Hret, Hnone.
  cbn [list_truthy]. cbn [workflow_returned workflow_files workflow_logged].
  split_and!; [done|done|]. apply last_snoc.
Qed.


(** The whole pipeline: when the page is fetched, some container yields
    a record and the file can be written, [scrape_website] returns the
    file name and the file holds the header and the rows of the records,
    in the order of the containers. *)
Theorem scrape_website_success (now : pystr) (fs : files) (url : pystr)
    (selectors : dict) (output_file : option pystr) (soup : node)
    (selector : pystr) (containers : list node) :
  http_get url 10 (session (WebScraper_init url 10)) = inr soup ->
  selectors !! "container"%string = Some selector ->
  select soup selector = Ok containers ->
  records_of selectors containers <> [] ->
  write_fails fs (export_filename now output_file)
    (record_rows (records_of selectors containers)) = None ->
  workflow_returned (scrape now fs url selectors output_file)
    = Returned (Some (export_filename now output_file))
  /\ workflow_files (scrape now fs url selectors output_file)
     = <[ export_filename now output_file
            := record_rows (records_of selectors containers) ]> fs.
Proof.
  intros Hget Hsel Hcs Hne Hw.
  destruct (parse_products_Ok unicode_decimal node select get_text_strip
              (WebScraper_init url 10) soup selectors containers
              (container_query_Ok node select _ _ _ _ Hsel Hcs))
    as (Hret & _ & _).
  unfold scrape_website. rewrite fetch_page_init, Hget, Hret.
  destruct (records_of selectors containers) as [|r rs] eqn:Hrs; [done|].
  cbn [list_truthy].
  rewrite (export_io_complete now fs (r :: rs) output_file);
    [|done|rewrite <- Hrs; apply successes_complete].
  by rewrite Hw.
Qed.

End WorkflowFacts.

(** On a file system that refuses the write, the listing page is
    fetched and searched and the export fails. *)
Example scrape_website_read_only :
  workflow_returned
    (scrape_website unicode14_decimal html_select html_get_text_strip
       read_only books_http [] ∅ (lit "https://books.toscrape.com/")
       book_selectors (Some (lit "books.csv")))
  = Failed (WriteFailed (lit "Permission denied")).
Proof. vm_compute. reflexivity. Qed.

(** * The configurations *)

Lemma lookup_site_Some (key : pystr)
    (sites : list (pystr * website_configs.config))
    (c : website_configs.config) :
  website_configs.lookup_site key sites = Some c -> (key, c) ∈ sites.
Proof.
  induction sites as [|[k c'] sites IH]; simpl; [done|].
  case_bool_decide as Hk.
  - intros [= <-]. subst k. by left.
  - intros H. right. by apply IH.
Qed.

Lemma lookup_site_None (key : pystr)
    (sites : list (pystr * website_configs.config)) :
  website_configs.lookup_site key sites = None -> key ∉ (fst <$> sites).
Proof.
  induction sites as [|[k c'] sites IH]; simpl.
  - intros _. apply not_elem_of_nil.
  - case_bool_decide as Hk; [done|]. intros H.
    apply not_elem_of_cons. split; [congruence | by apply IH].
Qed.

(** [get_config] returns the entry stored under the key and prints
    nothing; for a key that is not in [WEBSITES] it returns [None] and
    prints the key followed by the six keys there are, in the order of
    the table. *)
Theorem get_config_outcome (key : pystr) :
  match website_configs.get_config key with
  | (Some c, printed) =>
      (key, c) ∈ website_configs.WEBSITES /\ printed = []
  | (None, printed) =>
      (key ∉ (fst <$> website_configs.WEBSITES))
      /\ printed
         = [lit "Website '" ++ key ++ lit "' not found";
            lit "Available websites:";
            lit "  - books_toscrape";
            lit "  - amazon_example";
            lit "  - ebay_example";
            lit "  - walmart_example";
            lit "  - quotes_example";
            lit "  - generic_store"]
  end.
Proof.
  unfold website_configs.get_config.
  destruct (website_configs.lookup_site key website_configs.WEBSITES)
    as [c|] eqn:Hl.
  - split; [by apply lookup_site_Some | done].
  - split; [by apply lookup_site_None | done].
Qed.



Section ConfiguredSites.

Variable unicode_decimal : N -> bool.
Variable node : Type.
Variable select : node -> pystr -> result (list node).
Variable get_text_strip : node -> pystr.


End ConfiguredSites.

(** * The multi-page example *)

Section MultiPageFacts.

Variable unicode_decimal : N -> bool.
Variable node : Type.
Variable select : node -> pystr -> result (list node).
Variable get_text_strip : node -> pystr.
Variable write_fails : files -> pystr -> list pystr -> option (pystr * files).
Variable http_get : pystr -> N -> dict -> pystr + node.

Local Abbreviation records_of :=
  (successes unicode_decimal select get_text_strip).
Local Abbreviation example :=
  (example_2_multiple_pages unicode_decimal select get_text_strip
     write_fails http_get).
Local Abbreviation outcome_of :=
  (page_outcome unicode_decimal select get_text_strip http_get).
Local Abbreviation pages :=
  (pages_loop unicode_decimal select get_text_strip http_get).
Local Abbreviation headers := (session (WebScraper_init [] 10)).

Lemma pages_loop_page_done (config : website_configs.config) (page : nat)
    (rest : list nat) (all_products : list dict) (lg : workflow_log)
    (out : list printed) (slept : nat) (soup : node) (selector : pystr)
    (containers : list node) :
  http_get (page_url config page) 10 headers = inr soup ->
  website_configs.selectors config !! "container"%string = Some selector ->
  select soup selector = Ok containers ->
  pages config (page :: rest) all_products lg out slept
  = pages config rest
      (all_products
       ++ records_of (website_configs.selectors config) containers)
      (lg ++ [(INFO, FetchingURL (page_url config page)); (INFO, PageFetched)]
          ++ lift_log
               (logged
                  (parse_products unicode_decimal select get_text_strip
                     (WebScraper_init (page_url config page) 10) soup
                     (website_configs.selectors config))))
      (out ++ [ScrapingPage page]) (slept + 1).
Proof.
  intros Hget Hsel Hcs.
  destruct (parse_products_Ok unicode_decimal node select get_text_strip
              (WebScraper_init (page_url config page) 10) soup
              (website_configs.selectors config) containers
              (container_query_Ok node select _ _ _ _ Hsel Hcs))
    as (Hret & _ & _).
  cbn [pages_loop]. rewrite fetch_page_init.
  change (session (WebScraper_init (page_url config page) 10)) with headers.
  by rewrite Hget, Hret.
Qed.

Lemma pages_loop_fails (config : website_configs.config) (page : nat)
    (post : list nat) (f : failure) (pre : list nat) :
  Forall (fun p => exists records, outcome_of config p = Returned records)
    pre ->
  outcome_of config page = Failed f ->
  forall (all_products : list dict) (lg : workflow_log) (out : list printed)
         (slept : nat),
  exists lg',
    pages config (pre ++ page :: post) all_products lg out slept
    = (Failed f, lg', out ++ (ScrapingPage <$> (pre ++ [page])),
       (slept + length pre)%nat).
Proof.
  intros Hpre Hpage. induction Hpre as [|p pre [records Hp] _ IH];
    intros all_products lg out slept.
  - simpl app. cbn [pages_loop]. unfold page_outcome in Hpage.
    destruct (fetch_page http_get _) as [[soup|f'] flg].
    + destruct (returned _) as [products|e]; [done|].
      injection Hpage as <-. rewrite Nat.add_0_r. by eexists.
    + injection Hpage as <-. rewrite Nat.add_0_r. by eexists.
  - rewrite <- app_comm_cons. cbn [pages_loop]. unfold page_outcome in Hp.
    destruct (fetch_page http_get _) as [[soup|f'] flg]; [|done].
    destruct (returned _) as [products|e]; [|done].
    edestruct IH as [lg' ->]. eexists. f_equal; [f_equal|].
    + by rewrite <- app_assoc.
    + simpl. lia.
Qed.

(** When the three catalogue pages are fetched and searched and the
    file can be written, the example collects the records page after
    page, sleeps after each page, and exports them all to
    [all_books.csv], also when there is none: the file then holds the
    empty header row only. *)
Theorem multi_page_success (now : pystr) (fs : files)
    (config : website_configs.config) (selector : pystr)
    (soup1 soup2 soup3 : node) (cs1 cs2 cs3 : list node) :
  website_configs.lookup_site (lit "books_toscrape")
    website_configs.WEBSITES = Some config ->
  website_configs.selectors config !! "container"%string = Some selector ->
  http_get (page_url config 1) 10 headers = inr soup1 ->
  http_get (page_url config 2) 10 headers = inr soup2 ->
  http_get (page_url config 3) 10 headers = inr soup3 ->
  select soup1 selector = Ok cs1 ->
  select soup2 selector = Ok cs2 ->
  select soup3 selector = Ok cs3 ->
  let all :=
    records_of (website_configs.selectors config) cs1
    ++ records_of (website_configs.selectors config) cs2
    ++ records_of (website_configs.selectors config) cs3 in
  (forall rows, write_fails fs (lit "all_books.csv") rows = None) ->
  example_returned (example now fs) = Returned tt
  /\ example_printed (example now fs)
     = [ScrapingPage 1; ScrapingPage 2; ScrapingPage 3;
        Saved (length all) (lit "all_books.csv")]
  /\ example_slept (example now fs) = 3%nat
  /\ exists rows,
       example_files (example now fs) = <[ lit "all_books.csv" := rows ]> fs
       /\ (all <> [] ->
           rows
           = lit "name,price,rating"
             :: ((fun r : dict =>
                    csv_writerow [dict_get r "name" []; dict_get r "price" [];
                                  dict_get r "rating" []]) <$> all))
       /\ (all = [] -> rows = [[]]).
Proof.
  intros Hcfg Hsel Hg1 Hg2 Hg3 Hc1 Hc2 Hc3 all Hwrite.
  unfold example_2_multiple_pages. rewrite Hcfg. cbn [seq].
  rewrite (pages_loop_page_done config 1 _ _ _ _ _ soup1 selector cs1
             Hg1 Hsel Hc1).
  rewrite (pages_loop_page_done config 2 _ _ _ _ _ soup2 selector cs2
             Hg2 Hsel Hc2).
  rewrite (pages_loop_page_done config 3 _ _ _ _ _ soup3 selector cs3
             Hg3 Hsel Hc3).
  cbn [pages_loop]. rewrite app_nil_l, <- app_assoc. fold all.
  assert (export_filename now (Some (lit "all_books.csv"))
          = lit "all_books.csv") as Hname by reflexivity.
  unfold export_io. rewrite Hname, export_lines_present, Hwrite.
  cbn [io_returned io_files example_returned example_printed
       example_slept example_files].
  split_and!; [done|done|done|].
  eexists. split; [done|]. split.
  - intros Hne.
    assert (Forall (fun r => dom r = record_keys) all) as Hall.
    { unfold all. rewrite !Forall_app. split_and!; apply successes_complete. }
    pose proof (export_fixed_columns all Hne Hall) as Hfix.
    rewrite export_lines_present in Hfix. congruence.
  - intros Hnil. by rewrite Hnil.
Qed.

(** A page that cannot be fetched or searched stops the example: it
    raises the exception of that page, the pages after it are not asked
    for, nothing is exported and the files are as they were. *)
Theorem multi_page_failing_page (now : pystr) (fs : files)
    (config : website_configs.config) (pre post : list nat) (page : nat)
    (f : failure) :
  website_configs.lookup_site (lit "books_toscrape")
    website_configs.WEBSITES = Some config ->
  seq 1 3 = pre ++ page :: post ->
  Forall (fun p => exists records, outcome_of config p = Returned records)
    pre ->
  outcome_of config page = Failed f ->
  example_returned (example now fs) = Failed f
  /\ example_files (example now fs) = fs
  /\ example_printed (example now fs) = ScrapingPage <$> (pre ++ [page])
  /\ example_slept (example now fs) = length pre.
Proof.
  intros Hcfg Hpages Hpre Hpage.
  unfold example_2_multiple_pages. rewrite Hcfg, Hpages.
  destruct (pages_loop_fails config page post f pre Hpre Hpage [] [] [] 0)
    as [lg' ->].
  by split_and!.
Qed.

End MultiPageFacts.

(** * The further properties on concrete inputs *)

Lemma clean_price_sentinel_iff_witness :
  (forall c, c < 256 -> unicode14_decimal c = (48 <=? c) && (c <=? 57))
  /\ (forall c, unicode14_decimal c = true -> py_isspace c = false)
  /\ (_clean_price unicode14_decimal (lit "Free") = lit "N/A" <->
      Forall (fun c => price_char unicode14_decimal c = false) (lit "Free")).
Proof.
  split; [exact unicode14_latin1|].
  split; [exact unicode14_not_space|].
  exact (clean_price_sentinel_iff unicode14_decimal unicode14_latin1
           unicode14_not_space (lit "Free")).
Defined.

Lemma clean_price_fixed_points_witness :
  (forall c, c < 256 -> unicode14_decimal c = (48 <=? c) && (c <=? 57))
  /\ (forall c, unicode14_decimal c = true -> py_isspace c = false)
  /\ (_clean_price unicode14_decimal (lit "1,234.56") = lit "1,234.56" <->
      lit "1,234.56" = lit "N/A"
      \/ (lit "1,234.56" <> []
          /\ Forall (fun c => price_char unicode14_decimal c = true)
               (lit "1,234.56"))).
Proof.
  split; [exact unicode14_latin1|].
  split; [exact unicode14_not_space|].
  exact (clean_price_fixed_points unicode14_decimal unicode14_latin1
           unicode14_not_space (lit "1,234.56")).
Defined.

Lemma parse_products_length_witness :
  book_selectors !! "container"%string = Some (lit "article")
  /\ html_select listing (lit "article") = Ok [attic_book; untitled_book]
  /\ exists records,
       returned (parse_products unicode14_decimal html_select
                   html_get_text_strip books_scraper listing book_selectors)
         = Ok records
       /\ (length records <= length [attic_book; untitled_book])%nat
       /\ (Forall
             (fun c => exists r,
                _extract_product unicode14_decimal html_select
                  html_get_text_strip c book_selectors = Ok r)
             [attic_book; untitled_book] ->
           length records = length [attic_book; untitled_book]).
Proof.
  split; [vm_compute; reflexivity|]. split; [vm_compute; reflexivity|].
  apply (parse_products_length unicode14_decimal html html_select
           html_get_text_strip books_scraper listing book_selectors
           (lit "article") [attic_book; untitled_book]);
    vm_compute; reflexivity.
Defined.

Lemma parse_products_missing_container_witness :
  delete "container"%string book_selectors !! "container"%string = None
  /\ parse_products unicode14_decimal html_select html_get_text_strip
       books_scraper listing (delete "container"%string book_selectors)
     = {| returned := Raise (KeyError "container");
          instance := books_scraper;
          logged := [(ERROR, ErrorParsing (KeyError "container"))] |}.
Proof.
  split; [vm_compute; reflexivity|].
  apply (parse_products_missing_container unicode14_decimal html html_select
           html_get_text_strip books_scraper listing
           (delete "container"%string book_selectors)).
  vm_compute; reflexivity.
Defined.

Lemma parse_products_missing_field_witness :
  selectors_without_rating !! "container"%string = Some (lit "article")
  /\ html_select listing (lit "article") = Ok [attic_book; untitled_book]
  /\ "rating"%string ∈ ["name"; "price"; "rating"]%string
  /\ selectors_without_rating !! "rating"%string = None
  /\ returned (parse_products unicode14_decimal html_select
                 html_get_text_strip books_scraper listing
                 selectors_without_rating) = Ok []
  /\ forall i c, [attic_book; untitled_book] !! i = Some c ->
       exists e, (WARNING, ErrorExtracting (i + 1) e)
                   ∈ logged (parse_products unicode14_decimal html_select
                               html_get_text_strip books_scraper listing
                               selectors_without_rating).
Proof.
  split; [vm_compute; reflexivity|]. split; [vm_compute; reflexivity|].
  split; [set_solver|]. split; [vm_compute; reflexivity|].
  apply (parse_products_missing_field unicode14_decimal html html_select
           html_get_text_strip books_scraper listing selectors_without_rating
           (lit "article") [attic_book; untitled_book] "rating"%string);
    [vm_compute; reflexivity|vm_compute; reflexivity|set_solver
    |vm_compute; reflexivity].
Defined.

Lemma parse_products_price_shape_witness :
  (forall c, unicode14_decimal c = true -> py_isspace c = false)
  /\ returned (parse_products unicode14_decimal html_select
                 html_get_text_strip books_scraper short_listing
                 book_selectors) = Ok [attic]
  /\ attic ∈ [attic]
  /\ exists price,
       attic !! "price"%string = Some price
       /\ (price = lit "N/A"
           \/ (price <> []
               /\ Forall (fun c => price_char unicode14_decimal c = true)
                    price)).
Proof.
  split; [exact unicode14_not_space|].
  split; [vm_compute; reflexivity|]. split; [by left|].
  apply (parse_products_price_shape unicode14_decimal html html_select
           html_get_text_strip unicode14_not_space books_scraper
           short_listing book_selectors [attic] attic);
    [vm_compute; reflexivity|by left].
Defined.

Lemma parse_products_emitted_log_witness :
  book_selectors !! "container"%string = Some (lit "article")
  /\ brittle_select mixed_listing (lit "article")
     = Ok [attic_book; hollow_book; sharp_book]
  /\ ([(INFO, Found (length [attic_book; hollow_book; sharp_book]))]
      ++ skip_warnings unicode14_decimal brittle_select html_get_text_strip
           book_selectors 0 [attic_book; hollow_book; sharp_book]
      ++ [(INFO, SuccessfullyExtracted
                   (length (successes unicode14_decimal brittle_select
                              html_get_text_strip book_selectors
                              [attic_book; hollow_book; sharp_book])))]
      = [(INFO, Found 3);
         (WARNING, ErrorExtracting 2 (SelectorSyntaxError (lit "h3")));
         (INFO, SuccessfullyExtracted 2)])
  /\ emitted (logged (parse_products unicode14_decimal brittle_select
                        html_get_text_strip books_scraper mixed_listing
                        book_selectors))
     = [(INFO, Found (length [attic_book; hollow_book; sharp_book]))]
       ++ skip_warnings unicode14_decimal brittle_select html_get_text_strip
            book_selectors 0 [attic_book; hollow_book; sharp_book]
       ++ [(INFO, SuccessfullyExtracted
                    (length (successes unicode14_decimal brittle_select
                               html_get_text_strip book_selectors
                               [attic_book; hollow_book; sharp_book])))]
  /\ (length (emitted (logged (parse_products unicode14_decimal
                                 brittle_select html_get_text_strip
                                 books_scraper mixed_listing book_selectors)))
      + length (successes unicode14_decimal brittle_select
                  html_get_text_strip book_selectors
                  [attic_book; hollow_book; sharp_book])
      = length [attic_book; hollow_book; sharp_book] + 2)%nat.
Proof.
  split; [vm_compute; reflexivity|]. split; [vm_compute; reflexivity|].
  split; [vm_compute; reflexivity|].
  apply (parse_products_emitted_log unicode14_decimal html brittle_select
           html_get_text_strip books_scraper mixed_listing book_selectors
           (lit "article") [attic_book; hollow_book; sharp_book]);
    vm_compute; reflexivity.
Defined.

Lemma extract_product_first_match_witness :
  book_selectors !! "name"%string = Some (lit "h3")
  /\ book_selectors !! "price"%string = Some (lit "p")
  /\ book_selectors !! "rating"%string = Some (lit "span")
  /\ html_select crowded_book (lit "h3")
     = Ok (Element (lit "h3") [Text (lit "A Light in the Attic")]
           :: [Element (lit "h3") [Text (lit "Sharp Objects")]])
  /\ html_select crowded_book (lit "p")
     = Ok (Element (lit "p") [Text ([163] ++ lit "51.77")]
           :: [Element (lit "p") [Text ([163] ++ lit "47.82")]])
  /\ html_select crowded_book (lit "span")
     = Ok (Element (lit "span") [Text (lit "Three")]
           :: [Element (lit "span") [Text (lit "Four")]])
  /\ _extract_product unicode14_decimal html_select html_get_text_strip
       crowded_book book_selectors = Ok attic
  /\ exists record,
       _extract_product unicode14_decimal html_select html_get_text_strip
         crowded_book book_selectors = Ok record
       /\ record !! "name"%string
          = Some (html_get_text_strip
                    (Element (lit "h3") [Text (lit "A Light in the Attic")]))
       /\ record !! "price"%string
          = Some (_clean_price unicode14_decimal
                    (html_get_text_strip
                       (Element (lit "p") [Text ([163] ++ lit "51.77")])))
       /\ record !! "rating"%string
          = Some (html_get_text_strip
                    (Element (lit "span") [Text (lit "Three")])).
Proof.
  split; [vm_compute; reflexivity|]. split; [vm_compute; reflexivity|].
  split; [vm_compute; reflexivity|]. split; [vm_compute; reflexivity|].
  split; [vm_compute; reflexivity|]. split; [vm_compute; reflexivity|].
  split; [vm_compute; reflexivity|].
  apply (extract_product_first_match unicode14_decimal html html_select
           html_get_text_strip crowded_book book_selectors (lit "h3")
           (lit "p") (lit "span")
           (Element (lit "h3") [Text (lit "A Light in the Attic")])
           (Element (lit "p") [Text ([163] ++ lit "51.77")])
           (Element (lit "span") [Text (lit "Three")])
           [Element (lit "h3") [Text (lit "Sharp Objects")]]
           [Element (lit "p") [Text ([163] ++ lit "47.82")]]
           [Element (lit "span") [Text (lit "Four")]]);
    vm_compute; reflexivity.
Defined.

Lemma export_columns_witness :
  io_returned
    (export_io writable [] ∅
       [ {[ "name"%string := lit "a,b"; "url"%string := lit "x" ]};
         {[ "rating"%string := lit "5" ]} ]
       (Some (lit "out.csv"))) = Returned (lit "out.csv")
  /\ (csv_writerow
        (lit <$> present_columns
                   [ {[ "name"%string := lit "a,b"; "url"%string := lit "x" ]};
                     {[ "rating"%string := lit "5" ]} ])
      :: ((fun r : dict =>
             csv_writerow
               ((fun col => dict_get r col [])
                  <$> present_columns
                        [ {[ "name"%string := lit "a,b";
                             "url"%string := lit "x" ]};
                          {[ "rating"%string := lit "5" ]} ]))
            <$> [ {[ "name"%string := lit "a,b"; "url"%string := lit "x" ]};
                  {[ "rating"%string := lit "5" ]} ])
      = [lit "name,rating"; [34] ++ lit "a,b" ++ [34] ++ lit ","; lit ",5"])
  /\ lit "out.csv" = export_filename [] (Some (lit "out.csv"))
  /\ io_files
       (export_io writable [] ∅
          [ {[ "name"%string := lit "a,b"; "url"%string := lit "x" ]};
            {[ "rating"%string := lit "5" ]} ]
          (Some (lit "out.csv"))) !! lit "out.csv"
     = Some (csv_writerow
               (lit <$> present_columns
                          [ {[ "name"%string := lit "a,b";
                               "url"%string := lit "x" ]};
                            {[ "rating"%string := lit "5" ]} ])
             :: ((fun r : dict =>
                    csv_writerow
                      ((fun col => dict_get r col [])
                         <$> present_columns
                               [ {[ "name"%string := lit "a,b";
                                    "url"%string := lit "x" ]};
                                 {[ "rating"%string := lit "5" ]} ]))
                   <$> [ {[ "name"%string := lit "a,b";
                            "url"%string := lit "x" ]};
                         {[ "rating"%string := lit "5" ]} ])).
Proof.
  split; [vm_compute; reflexivity|]. split; [vm_compute; reflexivity|].
  apply (export_columns writable [] ∅
           [ {[ "name"%string := lit "a,b"; "url"%string := lit "x" ]};
             {[ "rating"%string := lit "5" ]} ]
           (Some (lit "out.csv")) (lit "out.csv")).
  vm_compute; reflexivity.
Defined.

Lemma export_default_filename_witness :
  io_returned (export_io writable (lit "20260101_000000") ∅ [attic] None)
  = Returned (lit "products_20260101_000000.csv")
  /\ io_returned
       (export_io writable (lit "20260101_000001")
          (io_files
             (export_io writable (lit "20260101_000000") ∅ [attic] None))
          [sharp] None)
     = Returned (lit "products_20260101_000001.csv")
  /\ exists rows1 rows2,
       export_lines [attic] = Ok rows1
       /\ export_lines [sharp] = Ok rows2
       /\ lit "products_20260101_000000.csv"
          = lit "products_" ++ lit "20260101_000000" ++ lit ".csv"
       /\ lit "products_20260101_000001.csv"
          = lit "products_" ++ lit "20260101_000001" ++ lit ".csv"
       /\ export_io writable (lit "20260101_000000") ∅ [attic] (Some [])
          = export_io writable (lit "20260101_000000") ∅ [attic] None
       /\ io_files
            (export_io writable (lit "20260101_000000") ∅ [attic] None)
            !! lit "products_20260101_000000.csv" = Some rows1
       /\ io_files
            (export_io writable (lit "20260101_000001")
               (io_files
                  (export_io writable (lit "20260101_000000") ∅ [attic]
                     None))
               [sharp] None)
            !! lit "products_20260101_000001.csv" = Some rows2
       /\ (lit "20260101_000000" <> lit "20260101_000001" ->
           lit "products_20260101_000000.csv"
           <> lit "products_20260101_000001.csv"
           /\ io_files
                (export_io writable (lit "20260101_000001")
                   (io_files
                      (export_io writable (lit "20260101_000000") ∅ [attic]
                         None))
                   [sharp] None)
                !! lit "products_20260101_000000.csv" = Some rows1)
       /\ (lit "20260101_000000" = lit "20260101_000001" ->
           io_files
             (export_io writable (lit "20260101_000001")
                (io_files
                   (export_io writable (lit "20260101_000000") ∅ [attic]
                      None))
                [sharp] None)
           = <[ lit "products_20260101_000001.csv" := rows2 ]> ∅).
Proof.
  split; [vm_compute; reflexivity|]. split; [vm_compute; reflexivity|].
  apply (export_default_filename writable (lit "20260101_000000")
           (lit "20260101_000001") ∅ [attic] [sharp]
           (lit "products_20260101_000000.csv")
           (lit "products_20260101_000001.csv"));
    vm_compute; reflexivity.
Defined.

Lemma parse_then_export_witness :
  returned (parse_products unicode14_decimal html_select html_get_text_strip
              books_scraper listing book_selectors) = Ok [attic; untitled]
  /\ [attic; untitled] <> []
  /\ io_returned
       (export_io writable [] ∅ [attic; untitled] (Some (lit "books.csv")))
     = Returned (lit "books.csv")
  /\ (lit "name,price,rating"
      :: ((fun r : dict =>
             csv_writerow [dict_get r "name" []; dict_get r "price" [];
                           dict_get r "rating" []]) <$> [attic; untitled])
      = [lit "name,price,rating"; lit "A Light in the Attic,51.77,Three";
         lit "Untitled,N/A,N/A"])
  /\ lit "books.csv" = export_filename [] (Some (lit "books.csv"))
  /\ io_files
       (export_io writable [] ∅ [attic; untitled] (Some (lit "books.csv")))
       !! lit "books.csv"
     = Some (lit "name,price,rating"
             :: ((fun r : dict =>
                    csv_writerow
                      [dict_get r "name" []; dict_get r "price" [];
                       dict_get r "rating" []]) <$> [attic; untitled])).
Proof.
  split; [vm_compute; reflexivity|]. split; [discriminate|].
  split; [vm_compute; reflexivity|]. split; [vm_compute; reflexivity|].
  apply (parse_then_export unicode14_decimal html html_select
           html_get_text_strip writable books_scraper listing book_selectors
           [attic; untitled] [] ∅ (Some (lit "books.csv")) (lit "books.csv"));
    [vm_compute; reflexivity|discriminate|vm_compute; reflexivity].
Defined.

Lemma scrape_website_no_products_witness :
  books_http (lit "https://books.toscrape.com/none") 10
    (session (WebScraper_init (lit "https://books.toscrape.com/none") 10))
  = inr empty_page
  /\ book_selectors !! "container"%string = Some (lit "article")
  /\ html_select empty_page (lit "article") = Ok []
  /\ successes unicode14_decimal html_select html_get_text_strip
       book_selectors [] = []
  /\ workflow_returned
       (scrape_website unicode14_decimal html_select html_get_text_strip
          writable books_http [] ∅ (lit "https://books.toscrape.com/none")
          book_selectors (Some (lit "books.csv"))) = Returned None
  /\ workflow_files
       (scrape_website unicode14_decimal html_select html_get_text_strip
          writable books_http [] ∅ (lit "https://books.toscrape.com/none")
          book_selectors (Some (lit "books.csv"))) = ∅
  /\ last (workflow_logged
             (scrape_website unicode14_decimal html_select
                html_get_text_strip writable books_http [] ∅
                (lit "https://books.toscrape.com/none") book_selectors
                (Some (lit "books.csv"))))
     = Some (WARNING, NoProductsFound).
Proof.
  split; [vm_compute; reflexivity|]. split; [vm_compute; reflexivity|].
  split; [vm_compute; reflexivity|]. split; [reflexivity|].
  apply (scrape_website_no_products unicode14_decimal html html_select
           html_get_text_strip writable books_http [] ∅
           (lit "https://books.toscrape.com/none") book_selectors
           (Some (lit "books.csv")) empty_page (lit "article") []);
    vm_compute; reflexivity.
Defined.

Lemma scrape_website_success_witness :
  books_http (lit "https://books.toscrape.com/") 10
    (session (WebScraper_init (lit "https://books.toscrape.com/") 10))
  = inr listing
  /\ book_selectors !! "container"%string = Some (lit "article")
  /\ html_select listing (lit "article") = Ok [attic_book; untitled_book]
  /\ successes unicode14_decimal html_select html_get_text_strip
       book_selectors [attic_book; untitled_book] <> []
  /\ writable ∅ (export_filename [] (Some (lit "books.csv")))
       (lit "name,price,rating"
        :: ((fun r : dict =>
               csv_writerow
                 [dict_get r "name" []; dict_get r "price" [];
                  dict_get r "rating" []])
              <$> successes unicode14_decimal html_select
                    html_get_text_strip book_selectors
                    [attic_book; untitled_book])) = None
  /\ (lit "name,price,rating"
      :: ((fun r : dict =>
             csv_writerow
               [dict_get r "name" []; dict_get r "price" [];
                dict_get r "rating" []])
            <$> successes unicode14_decimal html_select
                  html_get_text_strip book_selectors
                  [attic_book; untitled_book])
      = [lit "name,price,rating"; lit "A Light in the Attic,51.77,Three";
         lit "Untitled,N/A,N/A"])
  /\ workflow_returned
       (scrape_website unicode14_decimal html_select html_get_text_strip
          writable books_http [] ∅ (lit "https://books.toscrape.com/")
          book_selectors (Some (lit "books.csv")))
     = Returned (Some (export_filename [] (Some (lit "books.csv"))))
  /\ workflow_files
       (scrape_website unicode14_decimal html_select html_get_text_strip
          writable books_http [] ∅ (lit "https://books.toscrape.com/")
          book_selectors (Some (lit "books.csv")))
     = <[ export_filename [] (Some (lit "books.csv"))
            := lit "name,price,rating"
               :: ((fun r : dict =>
                      csv_writerow
                        [dict_get r "name" []; dict_get r "price" [];
                         dict_get r "rating" []])
                     <$> successes unicode14_decimal html_select
                           html_get_text_strip book_selectors
                           [attic_book; untitled_book]) ]> ∅.
Proof.
  assert (successes unicode14_decimal html_select html_get_text_strip
            book_selectors [attic_book; untitled_book] <> []) as Hne.
  { intros H. apply (f_equal length) in H. vm_compute in H. discriminate H. }
  split; [vm_compute; reflexivity|]. split; [vm_compute; reflexivity|].
  split; [vm_compute; reflexivity|]. split; [exact Hne|].
  split; [reflexivity|]. split; [vm_compute; reflexivity|].
  apply (scrape_website_success unicode14_decimal html html_select
           html_get_text_strip writable books_http [] ∅
           (lit "https://books.toscrape.com/") book_selectors
           (Some (lit "books.csv")) listing (lit "article")
           [attic_book; untitled_book]);
    [vm_compute; reflexivity|vm_compute; reflexivity|vm_compute; reflexivity
    |exact Hne|reflexivity].
Defined.



Lemma multi_page_success_witness :
  website_configs.lookup_site (lit "books_toscrape") website_configs.WEBSITES
  = Some website_configs.books_toscrape
  /\ website_configs.selectors website_configs.books_toscrape
       !! "container"%string = Some (lit "article.product_pod")
  /\ catalogue_http (page_url website_configs.books_toscrape 1) 10
       (session (WebScraper_init [] 10)) = inr listing
  /\ catalogue_http (page_url website_configs.books_toscrape 2) 10
       (session (WebScraper_init [] 10)) = inr empty_page
  /\ catalogue_http (page_url website_configs.books_toscrape 3) 10
       (session (WebScraper_init [] 10)) = inr short_listing
  /\ books_select listing (lit "article.product_pod")
     = Ok [attic_book; untitled_book]
  /\ books_select empty_page (lit "article.product_pod") = Ok []
  /\ books_select short_listing (lit "article.product_pod") = Ok [attic_book]
  /\ (successes unicode14_decimal books_select html_get_text_strip
        (website_configs.selectors website_configs.books_toscrape)
        [attic_book; untitled_book]
      ++ successes unicode14_decimal books_select html_get_text_strip
           (website_configs.selectors website_configs.books_toscrape) []
      ++ successes unicode14_decimal books_select html_get_text_strip
           (website_configs.selectors website_configs.books_toscrape)
           [attic_book]
      = [attic; untitled; attic])
  /\ let all :=
       successes unicode14_decimal books_select html_get_text_strip
         (website_configs.selectors website_configs.books_toscrape)
         [attic_book; untitled_book]
       ++ successes unicode14_decimal books_select html_get_text_strip
            (website_configs.selectors website_configs.books_toscrape) []
       ++ successes unicode14_decimal books_select html_get_text_strip
            (website_configs.selectors website_configs.books_toscrape)
            [attic_book] in
     (forall rows, writable ∅ (lit "all_books.csv") rows = None)
     /\ example_returned
          (example_2_multiple_pages unicode14_decimal books_select
             html_get_text_strip writable catalogue_http [] ∅) = Returned tt
     /\ example_printed
          (example_2_multiple_pages unicode14_decimal books_select
             html_get_text_strip writable catalogue_http [] ∅)
        = [ScrapingPage 1; ScrapingPage 2; ScrapingPage 3;
           Saved (length all) (lit "all_books.csv")]
     /\ example_slept
          (example_2_multiple_pages unicode14_decimal books_select
             html_get_text_strip writable catalogue_http [] ∅) = 3%nat
     /\ exists rows,
          example_files
            (example_2_multiple_pages unicode14_decimal books_select
               html_get_text_strip writable catalogue_http [] ∅)
          = <[ lit "all_books.csv" := rows ]> ∅
          /\ (all <> [] ->
              rows
              = lit "name,price,rating"
                :: ((fun r : dict =>
                       csv_writerow
                         [dict_get r "name" []; dict_get r "price" [];
                          dict_get r "rating" []]) <$> all))
          /\ (all = [] -> rows = [[]]).
Proof.
  split; [vm_compute; reflexivity|]. split; [vm_compute; reflexivity|].
  split; [vm_compute; reflexivity|]. split; [vm_compute; reflexivity|].
  split; [vm_compute; reflexivity|]. split; [vm_compute; reflexivity|].
  split; [vm_compute; reflexivity|]. split; [vm_compute; reflexivity|].
  split; [vm_compute; reflexivity|].
  intros all. split; [reflexivity|].
  apply (multi_page_success unicode14_decimal html books_select
           html_get_text_strip writable catalogue_http [] ∅
           website_configs.books_toscrape (lit "article.product_pod")
           listing empty_page short_listing
           [attic_book; untitled_book] [] [attic_book]);
    try (vm_compute; reflexivity).
Defined.

Lemma multi_page_failing_page_witness :
  website_configs.lookup_site (lit "books_toscrape") website_configs.WEBSITES
  = Some website_configs.books_toscrape
  /\ seq 1 3 = [1%nat] ++ 2%nat :: [3%nat]
  /\ Forall
       (fun p => exists records,
          page_outcome unicode14_decimal books_select html_get_text_strip
            broken_catalogue_http website_configs.books_toscrape p
          = Returned records) [1%nat]
  /\ page_outcome unicode14_decimal books_select html_get_text_strip
       broken_catalogue_http website_configs.books_toscrape 2
     = Failed (RequestException (lit "404 Client Error: Not Found"))
  /\ example_returned
       (example_2_multiple_pages unicode14_decimal books_select
          html_get_text_strip writable broken_catalogue_http [] ∅)
     = Failed (RequestException (lit "404 Client Error: Not Found"))
  /\ example_files
       (example_2_multiple_pages unicode14_decimal books_select
          html_get_text_strip writable broken_catalogue_http [] ∅) = ∅
  /\ example_printed
       (example_2_multiple_pages unicode14_decimal books_select
          html_get_text_strip writable broken_catalogue_http [] ∅)
     = ScrapingPage <$> ([1%nat] ++ [2%nat])
  /\ example_slept
       (example_2_multiple_pages unicode14_decimal books_select
          html_get_text_strip writable broken_catalogue_http [] ∅)
     = length [1%nat].
Proof.
  assert (Forall
            (fun p => exists records,
               page_outcome unicode14_decimal books_select
                 html_get_text_strip broken_catalogue_http
                 website_configs.books_toscrape p
               = Returned records) [1%nat]) as Hpre.
  { repeat constructor. eexists. vm_compute. reflexivity. }
  split; [vm_compute; reflexivity|]. split; [reflexivity|].
  split; [exact Hpre|]. split; [vm_compute; reflexivity|].
  apply (multi_page_failing_page unicode14_decimal html books_select
           html_get_text_strip writable broken_catalogue_http [] ∅
           website_configs.books_toscrape [1%nat] [3%nat] 2%nat
           (RequestException (lit "404 Client Error: Not Found")));
    [vm_compute; reflexivity|reflexivity|exact Hpre|vm_compute; reflexivity].
Defined.
